(** * A shallow embedding of the review pipeline of pr_review

    The modules below follow the Python package [pr_review]:
    - [PyStr]: the few [str] operations the code relies on
      ([upper], [strip], [in], slicing, [len], f-string integers,
      [textwrap.dedent]) over ASCII strings;
    - [GitUtils]: [git_utils/core.py];
    - [Gemini], [Providers]: [ai_providers/gemini.py] and
      [ai_providers/core.py];
    - [Formatters]: [print_response] of [output/formatters.py];
    - [Cli]: the [review] command of [cli.py].

    Python strings are modelled as Rocq [string]s (ASCII characters), so
    [len] is [String.length].  External effects (the [git] subprocess, the
    Gemini client, the environment) are parameters of the functions that
    use them, and every effect is recorded in an explicit trace. *)

From Stdlib Require Import String Ascii List Bool ZArith Lia.
From Stdlib Require Import Numbers.DecimalString.
Import ListNotations.
Open Scope string_scope.

(** ** Python string operations *)
Module PyStr.

(** [c.upper()] restricted to ASCII: only [a]..[z] change. *)
Definition upper_char (c : ascii) : ascii :=
  let n := nat_of_ascii c in
  if (97 <=? n)%nat && (n <=? 122)%nat then ascii_of_nat (n - 32) else c.

Fixpoint upper (s : string) : string :=
  match s with
  | EmptyString => EmptyString
  | String c s' => String (upper_char c) (upper s')
  end.

(** [needle in hay]. *)
Fixpoint contains (needle hay : string) : bool :=
  match hay with
  | EmptyString => prefix needle hay
  | String _ rest => prefix needle hay || contains needle rest
  end.

(** [c.isspace()] on the ASCII range: tab, newline, vertical tab, form
    feed, carriage return, the four separators 0x1c..0x1f, and space. *)
Definition isspace (c : ascii) : bool :=
  let n := nat_of_ascii c in
  ((9 <=? n)%nat && (n <=? 13)%nat) || ((28 <=? n)%nat && (n <=? 32)%nat).

Fixpoint lstrip (s : string) : string :=
  match s with
  | EmptyString => EmptyString
  | String c s' => if isspace c then lstrip s' else s
  end.

Definition rev_string (s : string) : string :=
  string_of_list_ascii (rev (list_ascii_of_string s)).

Definition rstrip (s : string) : string := rev_string (lstrip (rev_string s)).

(** [s.strip()]. *)
Definition strip (s : string) : string := rstrip (lstrip s).

(** Python truthiness of a string. *)
Definition truthy (s : string) : bool := negb (String.eqb s "").

(** [s[:m]] for an integer [m], negative bounds counting from the end. *)
Definition slice_upto (s : string) (m : Z) : string :=
  if (0 <=? m)%Z then substring 0 (Z.to_nat m) s
  else substring 0 (Z.to_nat (Z.of_nat (String.length s) + m)) s.

(** [f"{n}"] for a Python [int]. *)
Definition of_Z (n : Z) : string := NilEmpty.string_of_int (Z.to_int n).

(** [textwrap.dedent] (for texts indented with spaces and tabs): lines
    made only of blanks become empty, then the longest common leading
    blank prefix of the other lines is removed. *)
Definition is_blank_char (c : ascii) : bool :=
  (c =? " ")%char || (c =? "009")%char.

Fixpoint split_lines_aux (acc : string) (s : string) : list string :=
  match s with
  | EmptyString => [acc]
  | String c s' =>
      if (c =? "010")%char then acc :: split_lines_aux "" s'
      else split_lines_aux (acc ++ String c "") s'
  end.

Definition split_lines (s : string) : list string := split_lines_aux "" s.

Fixpoint join_lines (ls : list string) : string :=
  match ls with
  | [] => ""
  | [l] => l
  | l :: ls' => l ++ String "010" "" ++ join_lines ls'
  end.

Fixpoint leading_blanks (s : string) : string :=
  match s with
  | String c s' => if is_blank_char c then String c (leading_blanks s') else ""
  | EmptyString => ""
  end.

Definition whitespace_only (l : string) : bool :=
  String.eqb (leading_blanks l) l.

Fixpoint common_prefix (a b : string) : string :=
  match a, b with
  | String c a', String d b' =>
      if (c =? d)%char then String c (common_prefix a' b') else ""
  | _, _ => ""
  end.

Fixpoint margin (ls : list string) : option string :=
  match ls with
  | [] => None
  | l :: ls' =>
      if whitespace_only l then margin ls'
      else match margin ls' with
           | None => Some (leading_blanks l)
           | Some m => Some (common_prefix (leading_blanks l) m)
           end
  end.

Definition dedent (text : string) : string :=
  let ls := map (fun l => if whitespace_only l then "" else l) (split_lines text) in
  match margin ls with
  | None => join_lines ls
  | Some m =>
      join_lines (map (fun l => if prefix m l
                                then substring (String.length m) (String.length l - String.length m) l
                                else l) ls)
  end.

End PyStr.

(** ** Exceptions, observable events and the effect monad *)
Module Effects.

(** Exceptions that the modelled code raises: [PrReviewError] of
    [exceptions.py], [SystemExit] raised by [sys.exit], and any other
    [Exception] (with its [str]). *)
Inductive exn : Type :=
| PrReviewError (message : string) (exit_code : Z)
| SystemExit (code : Z)
| PyException (message : string).

(** Observable effects, in the order they happen. *)
Inductive event : Type :=
| EvPanel (title body : string)     (* console.print(Panel(body, title=...)) *)
| EvPrint (text : string)           (* console.print(text) *)
| EvLiveUpdate (text : string)      (* live.update(Markdown(text)) *)
| EvGitRun (cmd : list string)      (* subprocess.run(cmd, ...) *)
| EvMakePrompt (diff_text : string) (* make_prompt(diff_text) *)
| EvSendToProvider (provider : string)
| EvGeminiCall (model : string)     (* the network call of send_to_gemini *)
| EvTraceback.                      (* console.print_exception() *)

(** A computation produces a trace and either a value or an exception. *)
Definition M (A : Type) : Type := list event * (A + exn).

Definition ret {A} (a : A) : M A := ([], inl a).

Definition raise {A} (e : exn) : M A := ([], inr e).

Definition emit (ev : event) : M unit := ([ev], inl tt).

Definition bind {A B} (m : M A) (k : A -> M B) : M B :=
  match m with
  | (t1, inl a) => let (t2, r) := k a in (app t1 t2, r)
  | (t1, inr e) => (t1, inr e)
  end.

(** [try: m except ...: handler(e)]: the handler sees every exception and
    re-raises the ones its [except] clause does not name. *)
Definition try_except {A} (m : M A) (handler : exn -> M A) : M A :=
  match m with
  | (t1, inl a) => (t1, inl a)
  | (t1, inr e) => let (t2, r) := handler e in (app t1 t2, r)
  end.

Notation "x <- m ;; k" := (bind m (fun x => k))
  (at level 61, m at next level, right associativity).
Notation "m ;;; k" := (bind m (fun _ => k))
  (at level 61, right associativity).

(** The exit status of the process once the command has finished:
    a normal return exits 0, [sys.exit(c)] exits [c], and an uncaught
    exception prints a traceback and exits 1. *)
Definition exit_status {A} (r : A + exn) : Z :=
  match r with
  | inl _ => 0
  | inr (SystemExit c) => c
  | inr (PrReviewError _ _) => 1
  | inr (PyException _) => 1
  end.

End Effects.

(** ** [git_utils/core.py] *)
Module GitUtils.
Import PyStr Effects.

(** Optional string arguments: [None] or a Python string. *)
Definition opt_truthy (o : option string) : bool :=
  match o with Some s => truthy s | None => false end.

Definition opt_get (o : option string) : string :=
  match o with Some s => s | None => "" end.

(** [construct_diff_command]; [diff_args] is [None] or a list, modelled
    by the list itself ([None] and [[]] are both falsy). *)
Definition construct_diff_command (staged unstaged : bool)
    (file_path commit : option string) (diff_args : list string)
    : list string :=
  let cmd := ["git"; "diff"] in
  if staged then app cmd ["--cached"]
  else if opt_truthy file_path then app cmd ["--"; opt_get file_path]
  else if opt_truthy commit then
    let c := opt_get commit in
    if contains ".." c then app cmd [c]
    else app cmd [c ++ "^.." ++ c]
  else match diff_args with
       | _ :: _ => app cmd diff_args
       | [] => if negb unstaged then app cmd ["--cached"] else cmd
       end.

(** The truncation step of [get_git_diff] (lines 72-76). *)
Definition truncate_diff (max_chars : option Z) (diff_text : string) : string :=
  match max_chars with
  | Some m =>
      if negb (m =? 0)%Z && (m <? Z.of_nat (String.length diff_text))%Z then
        let truncated_message :=
          String "010" (String "010" "") ++ "[Diff truncated to " ++ of_Z m
          ++ " characters. Original size: " ++ of_Z (Z.of_nat (String.length diff_text))
          ++ " characters]" in
        slice_upto diff_text m ++ truncated_message
      else diff_text
  | None => diff_text
  end.

(** [get_git_diff]: [git] is the [git] executable, mapping an argument
    list to its standard output ([inl]) or, on a non-zero exit, to its
    standard error ([inr]). *)
Definition get_git_diff (git : list string -> string + string)
    (staged unstaged : bool) (file_path commit : option string)
    (diff_args : list string) (max_chars : option Z) : M string :=
  let cmd := construct_diff_command staged unstaged file_path commit diff_args in
  emit (EvGitRun cmd) ;;;
  match git cmd with
  | inl stdout => ret (truncate_diff max_chars stdout)
  | inr stderr => raise (PrReviewError ("Git error: " ++ strip stderr) 3)
  end.

End GitUtils.

(** ** [ai_providers/gemini.py] *)
Module Gemini.
Import PyStr Effects.

(** The triple-quoted literal passed to [textwrap.dedent] in [make_prompt],
    character for character. *)
Definition header_source : string := "
    You're an expert software engineer performing a detailed code review.
    Evaluate the provided pull request (PR) carefully, considering correctness,
    readability, efficiency, adherence to best practices, and potential edge cases
    or bugs. Provide constructive feedback highlighting specific issues or suggestions
    for improvements. Conclude your review explicitly with either `APPROVED` if the PR
    meets high standards and can be merged without further changes, or `MAKE CHANGES`
    if revisions are required, clearly stating your reasoning.

    **Format in MARKDOWN syntax.** Do not wrap your entire response in markdown code fences (like ```markdown ... ```); just provide the raw markdown content starting directly with your feedback or conclusion.
                                 
    Example:

    ```
    ## Title: [Give a title for the PR]
    Feedback:
    - [Specific issue or suggestion #1]
    - [Specific issue or suggestion #2]
    - [Further detailed feedback as needed]
                             
    Commit message:
    - [Commit message]

    Conclusion: APPROVED

    or

    ```
    ## Title: [Give a title for the PR]
    Feedback:
    - [Specific issue or suggestion #1]
    - [Specific issue or suggestion #2]
    - [Further detailed feedback as needed]
                             
    Conclusion: MAKE CHANGES
    ".

Definition header : string := dedent header_source.

Definition make_prompt (diff_text : string) : string := header ++ diff_text.

(** A fragment of the response stream: its [text] attribute, if it has one. *)
Definition fragment : Type := option string.

(** [send_to_gemini]: [gemini prompt api_key model] is the outcome of
    [genai.GenerativeModel(model).generate_content(prompt, stream=True)]
    after [genai.configure(api_key=api_key)]: a stream of fragments, or an
    exception with its message. *)
Definition send_to_gemini
    (gemini : string -> string -> string -> list fragment + string)
    (prompt api_key model : string) : M (list fragment) :=
  emit (EvGeminiCall model) ;;;
  match gemini prompt api_key model with
  | inl stream => ret stream
  | inr msg => raise (PyException msg)
  end.

End Gemini.

(** ** [ai_providers/core.py] *)
Module Providers.
Import PyStr Effects Gemini.

(** [send_to_provider]; the [except Exception] clause re-raises a
    [PrReviewError] and wraps any other [Exception]; [SystemExit] is not an
    [Exception] and passes through. *)
Definition send_to_provider
    (gemini : string -> string -> string -> list fragment + string)
    (prompt provider model api_key : string) : M (list fragment) :=
  emit (EvSendToProvider provider) ;;;
  try_except
    (if String.eqb provider "gemini" then send_to_gemini gemini prompt api_key model
     else if String.eqb provider "openai" then
       raise (PrReviewError "OpenAI provider not yet implemented" 4)
     else if String.eqb provider "anthropic" then
       raise (PrReviewError "Anthropic provider not yet implemented" 4)
     else raise (PrReviewError ("Unknown provider: " ++ provider) 4))
    (fun e =>
       match e with
       | PrReviewError _ _ => raise e
       | PyException msg =>
           raise (PrReviewError ("Error with AI provider " ++ provider ++ ": " ++ msg) 4)
       | SystemExit _ => raise e
       end).

End Providers.

(** ** [print_response] of [output/formatters.py] *)
Module Formatters.
Import PyStr Effects Gemini.

(** The [for chunk in response_stream] loop: a chunk with a [text]
    attribute is appended and the live display refreshed. *)
Fixpoint stream_loop (full_text : string) (response_stream : list fragment)
    : M string :=
  match response_stream with
  | [] => ret full_text
  | Some text :: rest =>
      let full_text' := full_text ++ text in
      emit (EvLiveUpdate full_text') ;;; stream_loop full_text' rest
  | None :: rest => stream_loop full_text rest
  end.

Definition print_response (response_stream : list fragment) : M bool :=
  full_text <- stream_loop "" response_stream ;;
  emit (EvPanel "AI PR Review" full_text) ;;;
  if contains "MAKE CHANGES" (upper full_text) then
    ((if contains "Conclusion: MAKE CHANGES" full_text
      then emit (EvPrint (String "010" "[bold red]Review failed: Changes requested[/]"))
      else ret tt) ;;;
     ret false)
  else
    ((if contains "Conclusion: APPROVED" full_text
      then emit (EvPrint (String "010" "[bold green]Review passed: Approved[/]"))
      else ret tt) ;;;
     ret true).

End Formatters.

(** ** [print_response] on the live response stream

    [Formatters] reads a stream whose chunks all answer [hasattr(chunk,
    "text")] without raising.  Here the stream is the one
    [generate_content(prompt, stream=True)] hands out: iterating it, or
    reading a chunk's [text], may raise. *)
Module Stream.
Import PyStr Effects Gemini.

(** One step of [for chunk in response_stream]:
    - [ChunkText t]: a chunk whose [text] is the string [t];
    - [ChunkNoText]: a chunk without a [text] attribute, so [hasattr] is
      false;
    - [ChunkRaises msg]: the step raises an exception with message [msg]:
      reading [chunk.text] raises something other than [AttributeError],
      which [hasattr] passes on (a Gemini chunk without parts raises
      [ValueError]), or the stream raises while producing the chunk. *)
Inductive chunk : Type :=
| ChunkText (text : string)
| ChunkNoText
| ChunkRaises (msg : string).

Fixpoint stream_loop (full_text : string) (response_stream : list chunk)
    : M string :=
  match response_stream with
  | [] => ret full_text
  | ChunkText text :: rest =>
      let full_text' := full_text ++ text in
      emit (EvLiveUpdate full_text') ;;; stream_loop full_text' rest
  | ChunkNoText :: rest => stream_loop full_text rest
  | ChunkRaises msg :: _ => raise (PyException msg)
  end.

Definition print_response (response_stream : list chunk) : M bool :=
  full_text <- stream_loop "" response_stream ;;
  emit (EvPanel "AI PR Review" full_text) ;;;
  if contains "MAKE CHANGES" (upper full_text) then
    ((if contains "Conclusion: MAKE CHANGES" full_text
      then emit (EvPrint (String "010" "[bold red]Review failed: Changes requested[/]"))
      else ret tt) ;;;
     ret false)
  else
    ((if contains "Conclusion: APPROVED" full_text
      then emit (EvPrint (String "010" "[bold green]Review passed: Approved[/]"))
      else ret tt) ;;;
     ret true).

(** The chunk a [Formatters] fragment stands for. *)
Definition of_fragment (f : fragment) : chunk :=
  match f with
  | Some text => ChunkText text
  | None => ChunkNoText
  end.



End Stream.


(** ** The [review] command of [cli.py] *)
Module Cli.
Import PyStr Effects GitUtils Gemini Providers Formatters.

(** The configuration dictionary loaded by [load_config]: each key may be
    missing; [api_keys] is a string-keyed table. *)
Record Config : Type := {
  cfg_provider : option string;
  cfg_model : option string;
  cfg_api_keys : option (list (string * string))
}.

(** [DEFAULT_CONFIG] of [config/core.py]. *)
Definition DEFAULT_CONFIG : Config := {|
  cfg_provider := Some "gemini";
  cfg_model := Some "gemini-2.5-flash-preview-04-17";
  cfg_api_keys := Some [("gemini", ""); ("openai", ""); ("anthropic", "")]
|}.

(** The options and arguments of [review_command]. *)
Record ReviewOpts : Type := {
  opt_staged : bool;
  opt_unstaged : bool;
  opt_file : option string;
  opt_commit : option string;
  opt_max_chars : option Z;
  opt_provider : option string;
  opt_model : option string;
  opt_ignore_errors : bool;
  opt_diff_args : list string;
  opt_verbose : bool   (* the group's [--verbose], read as [ctx.obj['verbose']] *)
}.

(** [d.get(k, default)] on a string table. *)
Fixpoint dict_get (d : list (string * string)) (k default : string) : string :=
  match d with
  | [] => default
  | (k', v) :: d' => if String.eqb k k' then v else dict_get d' k default
  end.

(** [a or b] where [a] is [None] or a string. *)
Definition opt_or (a : option string) (b : string) : string :=
  match a with
  | Some x => if truthy x then x else b
  | None => b
  end.

Definition get_or (a : option string) (default : string) : string :=
  match a with Some x => x | None => default end.

Definition active_provider (cfg : Config) (o : ReviewOpts) : string :=
  opt_or (opt_provider o) (get_or (cfg_provider cfg) "gemini").

Definition active_model (cfg : Config) (o : ReviewOpts) : string :=
  opt_or (opt_model o) (get_or (cfg_model cfg) "gemini-2.5-flash-preview-04-17").

(** [os.environ.get(f"{active_provider.upper()}_API_KEY") or
    config.get('api_keys', {}).get(active_provider, '')]; [env] is
    [os.environ.get]. *)
Definition resolve_api_key (env : string -> option string) (cfg : Config)
    (provider : string) : string :=
  opt_or (env (upper provider ++ "_API_KEY"))
         (dict_get (match cfg_api_keys cfg with Some d => d | None => [] end)
                   provider "").

Definition api_key_error_msg (provider : string) : string :=
  upper provider ++ "_API_KEY not found in environment or config. "
  ++ "Set it with 'pr-review config set api_keys." ++ provider ++ " YOUR_KEY' or "
  ++ "export " ++ upper provider ++ "_API_KEY=your_key".

Definition review_command (env : string -> option string)
    (git : list string -> string + string)
    (gemini : string -> string -> string -> list fragment + string)
    (config : Config) (o : ReviewOpts) : M unit :=
  try_except
    (let provider := active_provider config o in
     let model := active_model config o in
     let api_key := resolve_api_key env config provider in
     (if negb (truthy api_key)
      then emit (EvPanel "API Key Error" (api_key_error_msg provider)) ;;;
           raise (SystemExit 1)
      else ret tt) ;;;
     diff_text <- get_git_diff git (opt_staged o) (opt_unstaged o) (opt_file o)
                    (opt_commit o) (opt_diff_args o) (opt_max_chars o) ;;
     if negb (truthy (strip diff_text))
     then emit (EvPanel "Information" "No changes found.")
     else
       (emit (EvMakePrompt diff_text) ;;;
        let prompt := make_prompt diff_text in
        review_stream <- send_to_provider gemini prompt provider model api_key ;;
        review_passed <- print_response review_stream ;;
        if negb (opt_ignore_errors o) && negb review_passed
        then raise (SystemExit 1)
        else ret tt))
    (fun e =>
       match e with
       | PrReviewError message exit_code =>
           emit (EvPanel "Error" ("Error: " ++ message)) ;;;
           (if opt_verbose o then emit EvTraceback else ret tt) ;;;
           raise (SystemExit exit_code)
       | _ => raise e
       end).

(** One run of [pr-review review]: the events and the exit status. *)
Definition run_review (env : string -> option string)
    (git : list string -> string + string)
    (gemini : string -> string -> string -> list fragment + string)
    (config : Config) (o : ReviewOpts) : list event * Z :=
  let (trace, r) := review_command env git gemini config o in
  (trace, exit_status r).

End Cli.

(** ** Traces over other kinds of output

    The commands below print things that are not plain strings (rules,
    syntax-highlighted blocks) or save the configuration; they use the
    same trace-and-exception structure as [Effects.M] over their own output
    type, into which the computations of [Effects.M] are lifted. *)
Module Traces.
Import Effects.

Definition MT (E A : Type) : Type := list E * (A + exn).

Definition retT {E A} (a : A) : MT E A := ([], inl a).

Definition raiseT {E A} (e : exn) : MT E A := ([], inr e).

Definition emitT {E} (ev : E) : MT E unit := ([ev], inl tt).

Definition emitsT {E} (evs : list E) : MT E unit := (evs, inl tt).

Definition bindT {E A B} (m : MT E A) (k : A -> MT E B) : MT E B :=
  match m with
  | (t1, inl a) => let (t2, r) := k a in (app t1 t2, r)
  | (t1, inr e) => (t1, inr e)
  end.

Definition tryT {E A} (m : MT E A) (handler : exn -> MT E A) : MT E A :=
  match m with
  | (t1, inl a) => (t1, inl a)
  | (t1, inr e) => let (t2, r) := handler e in (app t1 t2, r)
  end.

Definition liftM {E A} (f : event -> E) (m : M A) : MT E A :=
  (map f (fst m), snd m).

Notation "x <~ m ;; k" := (bindT m (fun x => k))
  (at level 61, m at next level, right associativity).
Notation "m ~;; k" := (bindT m (fun _ => k))
  (at level 61, right associativity).

End Traces.

(** ** [highlight_diff] of [output/formatters.py] *)
Module Highlight.
Import PyStr GitUtils.

(** Line boundaries of [str.splitlines] in the ASCII range: [\n], [\r],
    [\r\n], [\v], [\f] and the separators 0x1c..0x1e. *)
Definition is_line_break (c : ascii) : bool :=
  let n := nat_of_ascii c in
  (n =? 10)%nat || (n =? 13)%nat || (n =? 11)%nat || (n =? 12)%nat
  || (n =? 28)%nat || (n =? 29)%nat || (n =? 30)%nat.

(** [s.splitlines()]: a trailing line boundary adds no empty line. *)
Fixpoint splitlines_aux (acc : string) (s : string) : list string :=
  match s with
  | EmptyString => if String.eqb acc "" then [] else [acc]
  | String c s' =>
      if (c =? "013")%char then
        match s' with
        | String d s'' => if (d =? "010")%char then acc :: splitlines_aux "" s''
                          else acc :: splitlines_aux "" s'
        | EmptyString => [acc]
        end
      else if is_line_break c then acc :: splitlines_aux "" s'
      else splitlines_aux (acc ++ String c "") s'
  end.

Definition splitlines (s : string) : list string := splitlines_aux "" s.

(** [s.split()]: the maximal runs of non-whitespace characters. *)
Fixpoint split_ws_aux (acc : string) (s : string) : list string :=
  match s with
  | EmptyString => if String.eqb acc "" then [] else [acc]
  | String c s' =>
      if isspace c then
        (if String.eqb acc "" then split_ws_aux "" s' else acc :: split_ws_aux "" s')
      else split_ws_aux (acc ++ String c "") s'
  end.

Definition split_ws (s : string) : list string := split_ws_aux "" s.

(** [s.lstrip(chars)]: drop leading characters that occur in [chars]. *)
Fixpoint lstrip_chars (chars s : string) : string :=
  match s with
  | EmptyString => EmptyString
  | String c s' =>
      if contains (String c "") chars then lstrip_chars chars s' else s
  end.

(** The file name taken from a [diff --git] line. *)
Definition header_name (line : string) : string :=
  match split_ws line with
  | _ :: _ :: p :: _ => lstrip_chars "a/" p
  | _ => "unknown"
  end.

Definition is_header (line : string) : bool := prefix "diff --git" line.

(** The loop of [highlight_diff] over the lines, with its final
    [# Add the last file] step: [files], [current_file] and
    [current_file_name] are its three variables. *)
Fixpoint diff_loop (files : list (string * string)) (current_file : list string)
    (current_file_name : option string) (lines : list string)
    : list (string * string) :=
  let flush :=
    match current_file with
    | [] => files
    | _ :: _ => if opt_truthy current_file_name
                then app files [(opt_get current_file_name, join_lines current_file)]
                else files
    end in
  match lines with
  | [] => flush
  | line :: rest =>
      if is_header line then diff_loop flush [line] (Some (header_name line)) rest
      else diff_loop files (app current_file [line]) current_file_name rest
  end.

Definition diff_files (diff_text : string) : list (string * string) :=
  diff_loop [] [] None (splitlines diff_text).

(** What [highlight_diff] prints: text, a [Rule()] between files, and a
    [Syntax(content, "diff", ...)] block. *)
Inductive shown : Type :=
| ShownText (text : string)
| ShownRule
| ShownSyntax (content : string).

Fixpoint show_files (first : bool) (files : list (string * string)) : list shown :=
  match files with
  | [] => []
  | (filename, content) :: rest =>
      app (if first then [] else [ShownRule])
          (ShownText ("[bold blue]" ++ filename ++ "[/]") :: ShownSyntax content
           :: show_files false rest)
  end.

Definition highlight_diff (diff_text : string) : list shown :=
  if negb (truthy (strip diff_text)) then [ShownText "[yellow]No changes found.[/]"]
  else show_files true (diff_files diff_text).

End Highlight.

(** ** The [cli] group, [main], and the [diff] command of [cli.py] *)
Module CliMain.
Import PyStr Effects Traces GitUtils Gemini Cli Highlight.

(** [load_config]: [config_file] is [None] when [~/.pr-review.toml] does
    not exist, [Some (inl c)] when it parses (the entries [review] reads),
    and [Some (inr err)] when opening or parsing it raises [err]. *)
Definition load_config (config_file : option (Config + string)) : M Config :=
  match config_file with
  | None => ret DEFAULT_CONFIG
  | Some (inl c) => ret c
  | Some (inr err) => raise (PrReviewError ("Error loading config: " ++ err) 2)
  end.

(** The [cli] group callback, then the [review] subcommand. *)
Definition cli_review (env : string -> option string)
    (git : list string -> string + string)
    (gemini : string -> string -> string -> list fragment + string)
    (config_file : option (Config + string)) (o : ReviewOpts) : M unit :=
  config <- try_except (load_config config_file)
              (fun e =>
                 match e with
                 | PrReviewError message exit_code =>
                     emit (EvPanel "Error" ("Error: " ++ message)) ;;;
                     (if opt_verbose o then emit EvTraceback else ret tt) ;;;
                     raise (SystemExit exit_code)
                 | _ => raise e
                 end) ;;
  review_command env git gemini config o.

(** [main]: any [Exception] that escapes the command (a [PrReviewError]
    shows its message) is reported with its traceback and turned into exit
    status 1; [SystemExit] passes through. *)
Definition main {A} (m : M A) : M A :=
  try_except m
    (fun e =>
       match e with
       | PyException msg | PrReviewError msg _ =>
           emit (EvPanel "Error" ("Unexpected error: " ++ msg)) ;;;
           emit EvTraceback ;;; raise (SystemExit 1)
       | _ => raise e
       end).

(** [pr-review review ...]: the events and the exit status. *)
Definition run_main_review (env : string -> option string)
    (git : list string -> string + string)
    (gemini : string -> string -> string -> list fragment + string)
    (config_file : option (Config + string)) (o : ReviewOpts) : list event * Z :=
  let (trace, r) := main (cli_review env git gemini config_file o) in
  (trace, exit_status r).

(** Output of [diff_command]: console events and highlighted blocks. *)
Inductive dout : Type :=
| DEvent (e : event)
| DShown (s : shown).

Definition diff_command (git : list string -> string + string) (verbose : bool)
    (staged unstaged : bool) (file commit : option string) (max_chars : option Z)
    (no_color : bool) (diff_args : list string) : MT dout unit :=
  tryT
    (diff_text <~ liftM DEvent (get_git_diff git staged unstaged file commit
                                   diff_args max_chars) ;;
     if negb (truthy (strip diff_text))
     then emitT (DEvent (EvPanel "Information" "No changes found."))
     else if no_color then emitT (DEvent (EvPrint diff_text))
     else emitsT (map DShown (highlight_diff diff_text)))
    (fun e =>
       match e with
       | PrReviewError message exit_code =>
           emitT (DEvent (EvPanel "Error" ("Error: " ++ message))) ~;;
           (if verbose then emitT (DEvent EvTraceback) else retT tt) ~;;
           raiseT (SystemExit exit_code)
       | _ => raiseT e
       end).

End CliMain.

(** ** The [config] subcommands of [cli.py] *)
Module ConfigCmd.
Import PyStr Effects Traces GitUtils.

(** The values [tomli] produces and [config set] stores: strings,
    integers, booleans, tables (dicts, keys in insertion order) and arrays;
    [VOther] stands for the remaining scalars (floats, dates, times) with
    their type name, [str], [repr] and truth value. *)
#[warnings="-register-all"]
Inductive toml_value : Type :=
| VStr (s : string)
| VInt (n : Z)
| VBool (b : bool)
| VDict (d : list (string * toml_value))
| VList (l : list toml_value)
| VOther (type_name str_form repr_form : string) (truth : bool).

Definition dict : Type := list (string * toml_value).

(** [DEFAULT_CONFIG] of [config/core.py]. *)
Definition DEFAULT_CONFIG : dict :=
  [("provider", VStr "gemini");
   ("model", VStr "gemini-2.5-flash-preview-04-17");
   ("api_keys", VDict [("gemini", VStr ""); ("openai", VStr ""); ("anthropic", VStr "")])].

(** [k in d], [d[k]] (for a present key), [d[k] = v] (in place when [k]
    is present, appended otherwise) and [del d[k]]. *)
Definition dict_mem (d : dict) (k : string) : bool :=
  existsb (fun kv => String.eqb (fst kv) k) d.

Fixpoint dict_lookup (d : dict) (k : string) : option toml_value :=
  match d with
  | [] => None
  | (k', v) :: d' => if String.eqb k' k then Some v else dict_lookup d' k
  end.

Definition dict_set (d : dict) (k : string) (v : toml_value) : dict :=
  if dict_mem d k
  then map (fun kv => if String.eqb (fst kv) k then (k, v) else kv) d
  else app d [(k, v)].

Definition dict_del (d : dict) (k : string) : dict :=
  filter (fun kv => negb (String.eqb (fst kv) k)) d.

(** [bool(v)]. *)
Definition truthy_value (v : toml_value) : bool :=
  match v with
  | VStr s => truthy s
  | VInt n => negb (n =? 0)%Z
  | VBool b => b
  | VDict d => match d with [] => false | _ => true end
  | VList l => match l with [] => false | _ => true end
  | VOther _ _ _ t => t
  end.

Definition type_name (v : toml_value) : string :=
  match v with
  | VStr _ => "str"
  | VInt _ => "int"
  | VBool _ => "bool"
  | VDict _ => "dict"
  | VList _ => "list"
  | VOther t _ _ _ => t
  end.

(** [repr] of a string: single quotes unless the text has a single quote
    and no double quote; backslash, the quote, tab, newline and carriage
    return are escaped, and other non-printable characters become
    [\xNN]. *)
Definition dquote : ascii := ascii_of_nat 34.
Definition squote : ascii := ascii_of_nat 39.
Definition backslash : ascii := ascii_of_nat 92.

Definition hex_digit (n : nat) : ascii :=
  if (n <? 10)%nat then ascii_of_nat (48 + n) else ascii_of_nat (87 + n).

Definition printable (c : ascii) : bool :=
  let n := nat_of_ascii c in
  ((32 <=? n)%nat && (n <? 127)%nat) || ((161 <=? n)%nat && negb (n =? 173)%nat).

Definition repr_char (q c : ascii) : string :=
  if (c =? backslash)%char then String backslash (String backslash "")
  else if (c =? q)%char then String backslash (String q "")
  else if (c =? "009")%char then String backslash "t"
  else if (c =? "010")%char then String backslash "n"
  else if (c =? "013")%char then String backslash "r"
  else if printable c then String c ""
  else String backslash (String "x" (String (hex_digit (nat_of_ascii c / 16))
                                      (String (hex_digit (nat_of_ascii c mod 16)) ""))).

Fixpoint repr_body (q : ascii) (s : string) : string :=
  match s with
  | EmptyString => ""
  | String c s' => repr_char q c ++ repr_body q s'
  end.

Definition repr_str (s : string) : string :=
  let q := if contains (String squote "") s && negb (contains (String dquote "") s)
           then dquote else squote in
  String q (repr_body q s ++ String q "").

Fixpoint py_repr (v : toml_value) : string :=
  match v with
  | VStr s => repr_str s
  | VInt n => of_Z n
  | VBool b => if b then "True" else "False"
  | VDict d =>
      "{" ++ (fix items (d : list (string * toml_value)) : string :=
                match d with
                | [] => ""
                | [(k, x)] => repr_str k ++ ": " ++ py_repr x
                | (k, x) :: d' => repr_str k ++ ": " ++ py_repr x ++ ", " ++ items d'
                end) d ++ "}"
  | VList l =>
      "[" ++ (fix elems (l : list toml_value) : string :=
                match l with
                | [] => ""
                | [x] => py_repr x
                | x :: l' => py_repr x ++ ", " ++ elems l'
                end) l ++ "]"
  | VOther _ _ r _ => r
  end.

(** [str(v)], as an f-string shows it. *)
Definition py_str (v : toml_value) : string :=
  match v with
  | VStr s => s
  | VOther _ s _ _ => s
  | _ => py_repr v
  end.

(** [part in v] for a string [part]. *)
Definition py_in (part : string) (v : toml_value) : bool + exn :=
  match v with
  | VDict d => inl (dict_mem d part)
  | VStr s => inl (contains part s)
  | VList l => inl (existsb (fun x => match x with VStr s => String.eqb s part | _ => false end) l)
  | _ => inr (PyException ("argument of type '" ++ type_name v ++ "' is not iterable"))
  end.

(** [v[part]] for a string [part]. *)
Definition py_getitem (v : toml_value) (part : string) : toml_value + exn :=
  match v with
  | VDict d =>
      match dict_lookup d part with
      | Some x => inl x
      | None => inr (PyException (repr_str part))
      end
  | VStr _ => inr (PyException "string indices must be integers, not 'str'")
  | VList _ => inr (PyException "list indices must be integers or slices, not str")
  | _ => inr (PyException ("'" ++ type_name v ++ "' object is not subscriptable"))
  end.

(** [del v[part]] for a string [part] already found [in v]. *)
Definition py_delitem (v : toml_value) (part : string) : toml_value + exn :=
  match v with
  | VDict d => inl (VDict (dict_del d part))
  | VList _ => inr (PyException "list indices must be integers or slices, not str")
  | _ => inr (PyException ("'" ++ type_name v ++ "' object doesn't support item deletion"))
  end.

(** [s.split(sep)] for a one-character separator. *)
Fixpoint split_on_aux (sep : ascii) (acc : string) (s : string) : list string :=
  match s with
  | EmptyString => [acc]
  | String c s' =>
      if (c =? sep)%char then acc :: split_on_aux sep "" s'
      else split_on_aux sep (acc ++ String c "") s'
  end.

Definition split_on (sep : ascii) (s : string) : list string := split_on_aux sep "" s.

(** [s.lower()] on ASCII. *)
Definition lower_char (c : ascii) : ascii :=
  let n := nat_of_ascii c in
  if (65 <=? n)%nat && (n <=? 90)%nat then ascii_of_nat (n + 32) else c.

Fixpoint lower (s : string) : string :=
  match s with
  | EmptyString => EmptyString
  | String c s' => String (lower_char c) (lower s')
  end.

Definition is_digit (c : ascii) : bool :=
  let n := nat_of_ascii c in (48 <=? n)%nat && (n <=? 57)%nat.

(** [s.isdigit()] on ASCII: non-empty and only decimal digits. *)
Definition isdigit (s : string) : bool :=
  match s with
  | EmptyString => false
  | _ => forallb is_digit (list_ascii_of_string s)
  end.

(** [int(s)] for a string of decimal digits. *)
Definition int_of_digits (s : string) : Z :=
  fold_left (fun acc c => (acc * 10 + Z.of_nat (nat_of_ascii c - 48))%Z)
            (list_ascii_of_string s) 0%Z.

(** The conversion [config set] applies to its [VALUE] argument. *)
Definition parse_value (value : string) : toml_value :=
  if String.eqb (lower value) "true" || String.eqb (lower value) "false"
  then VBool (String.eqb (lower value) "true")
  else if isdigit value then VInt (int_of_digits value)
  else VStr value.

(** [config_get]: where the key leads, [None] when a step is not found. *)
Fixpoint walk (v : toml_value) (parts : list string) : option toml_value + exn :=
  match parts with
  | [] => inl (Some v)
  | part :: rest =>
      match py_in part v with
      | inr e => inr e
      | inl false => inl None
      | inl true =>
          match py_getitem v part with
          | inr e => inr e
          | inl v' => walk v' rest
          end
      end
  end.

Definition get_value (config : dict) (key : string) : option toml_value + exn :=
  if contains "." key then walk (VDict config) (split_on "." key)
  else if dict_mem config key then inl (dict_lookup config key)
  else inl None.

(** Output of the configuration commands: console events, the
    dictionary written by [save_config], and a traceback printed by
    [console.print_exception()]. *)
Inductive cout : Type :=
| COut (e : event)
| CSaved (config : dict)
| CTraceback.

Definition not_found (key : string) : MT cout unit :=
  emitT (COut (EvPanel "Warning" ("Key '" ++ key ++ "' not found in config"))).

Definition config_get (config : dict) (key : string) : MT cout unit :=
  match get_value config key with
  | inr e => raiseT e
  | inl None => not_found key
  | inl (Some value) =>
      let shown := if contains "api_key" key
                   then (if truthy_value value then "****" else "<not set>")
                   else py_str value in
      emitT (COut (EvPanel "Configuration Value" (key ++ ": " ++ shown)))
  end.

(** [config_set]: the dotted path creates (or replaces by) tables on the
    way; [set_in d path last v] is [d] after [target[last] = v] at the end
    of [path]. *)
Fixpoint set_in (d : dict) (path : list string) (last : string) (v : toml_value) : dict :=
  match path with
  | [] => dict_set d last v
  | part :: rest =>
      let sub := match dict_lookup d part with Some (VDict sd) => sd | _ => [] end in
      dict_set d part (VDict (set_in sub rest last v))
  end.

Definition set_config (config : dict) (key : string) (value : string) : dict :=
  if contains "." key then
    let parts := split_on "." key in
    set_in config (removelast parts) (List.last parts "") (parse_value value)
  else dict_set config key (parse_value value).

(** [save_config]: [save d] is [None] when writing succeeds and the
    exception text otherwise. *)
Definition save_config (save : dict -> option string) (config : dict) : MT cout unit :=
  match save config with
  | None => emitT (CSaved config)
  | Some err => raiseT (PrReviewError ("Error saving config: " ++ err) 2)
  end.

Definition config_set (save : dict -> option string) (config : dict)
    (key value : string) : MT cout unit :=
  save_config save (set_config config key value) ~;;
  emitT (COut (EvPanel "Configuration Updated"
                 ("Updated: " ++ key ++ " = "
                  ++ (if contains "api_key" key then "****" else value)))).

(** [config_unset]: [unset_in v path last] is [v] after
    [del target[last]], [None] when a step is not found. *)
Fixpoint unset_in (v : toml_value) (path : list string) (last : string) : option toml_value + exn :=
  match path with
  | [] =>
      match py_in last v with
      | inr e => inr e
      | inl false => inl None
      | inl true =>
          match py_delitem v last with
          | inr e => inr e
          | inl v' => inl (Some v')
          end
      end
  | part :: rest =>
      match py_in part v with
      | inr e => inr e
      | inl false => inl None
      | inl true =>
          match py_getitem v part with
          | inr e => inr e
          | inl sub =>
              match unset_in sub rest last with
              | inr e => inr e
              | inl None => inl None
              | inl (Some sub') =>
                  match v with
                  | VDict d => inl (Some (VDict (dict_set d part sub')))
                  | _ => inl (Some v)
                  end
              end
          end
      end
  end.

Definition unset_config (config : dict) (key : string) : option dict + exn :=
  if contains "." key then
    let parts := split_on "." key in
    match unset_in (VDict config) (removelast parts) (List.last parts "") with
    | inr e => inr e
    | inl (Some (VDict config')) => inl (Some config')
    | inl _ => inl None
    end
  else if dict_mem config key then inl (Some (dict_del config key))
  else inl None.

Definition config_unset (save : dict -> option string) (config : dict)
    (key : string) : MT cout unit :=
  match unset_config config key with
  | inr e => raiseT e
  | inl None => not_found key
  | inl (Some config') =>
      save_config save config' ~;;
      emitT (COut (EvPanel "Configuration Updated" ("Removed: " ++ key)))
  end.

(** [config_list]: the lines it prints; [value.items()] on a non-table
    [api_keys] raises. *)
Fixpoint config_lines (items : dict) : list string + exn :=
  match items with
  | [] => inl []
  | (key, v) :: rest =>
      let here :=
        if String.eqb key "api_keys" then
          match v with
          | VDict keys =>
              inl ((String "010" "[cyan]" ++ key ++ ":[/]")
                   :: map (fun pk => "  [green]" ++ fst pk ++ ":[/] "
                                     ++ (if truthy_value (snd pk) then "****" else "<not set>"))
                          keys)
          | _ => inr (PyException ("'" ++ type_name v ++ "' object has no attribute 'items'"))
          end
        else inl ["[cyan]" ++ key ++ ":[/] [green]" ++ py_str v ++ "[/]"] in
      match here with
      | inr e => inr e
      | inl ls =>
          match config_lines rest with
          | inr e => inr e
          | inl ls' => inl (app ls ls')
          end
      end
  end.

Definition config_list (config : dict) : MT cout unit :=
  match config_lines config with
  | inr e => raiseT e
  | inl ls => emitT (COut (EvPrint (join_lines ("[bold]Current Configuration:[/]" :: ls))))
  end.

(** The [cli] group loading the file, then a configuration command, under
    [main]: [config_file] as in [CliMain.load_config]. *)
Definition load_config (config_file : option (dict + string)) : MT cout dict :=
  match config_file with
  | None => retT DEFAULT_CONFIG
  | Some (inl c) => retT c
  | Some (inr err) => raiseT (PrReviewError ("Error loading config: " ++ err) 2)
  end.

Definition run_config_command (verbose : bool) (config_file : option (dict + string))
    (command : dict -> MT cout unit) : list cout * Z :=
  let r :=
    tryT
      (config <~ tryT (load_config config_file)
                  (fun e =>
                     match e with
                     | PrReviewError message exit_code =>
                         emitT (COut (EvPanel "Error" ("Error: " ++ message))) ~;;
                         (if verbose then emitT CTraceback else retT tt) ~;;
                         raiseT (SystemExit exit_code)
                     | _ => raiseT e
                     end) ;;
       command config)
      (fun e =>
         match e with
         | PyException msg | PrReviewError msg _ =>
             emitT (COut (EvPanel "Error" ("Unexpected error: " ++ msg))) ~;;
             emitT CTraceback ~;;
             raiseT (SystemExit 1)
         | _ => raiseT e
         end) in
  (fst r, exit_status (snd r)).

End ConfigCmd.

(** ** The diff scope table of the specification (section 4.1)

    Written from the specification's precedence list, to be compared with
    [GitUtils.construct_diff_command].  An option counts as given when it
    is present and non-empty. *)
Module ScopeTable.

Inductive DiffScope : Type :=
| ScopeStaged
| ScopeFile (path : string)
| ScopeCommitRange (spec : string)
| ScopeSingleCommit (commit : string)
| ScopeRawArgs (args : list string)
| ScopeDefaultStaged
| ScopeUnstaged.

Definition given (o : option string) : option string :=
  match o with
  | Some s => if String.eqb s "" then None else Some s
  | None => None
  end.

(** 1. staged; 2. else a file path; 3. else a commit spec, a range when it
    contains [..]; 4. else raw arguments; 5. else the staged default unless
    unstaged was requested. *)
Definition resolve_scope (staged unstaged : bool) (file_path commit : option string)
    (diff_args : list string) : DiffScope :=
  if staged then ScopeStaged
  else match given file_path with
  | Some p => ScopeFile p
  | None =>
      match given commit with
      | Some c => if PyStr.contains ".." c then ScopeCommitRange c
                  else ScopeSingleCommit c
      | None =>
          match diff_args with
          | [] => if unstaged then ScopeUnstaged else ScopeDefaultStaged
          | _ => ScopeRawArgs diff_args
          end
      end
  end.

(** The [git diff] arguments each scope stands for: the index, one path,
    a range verbatim, a commit against its parent, raw arguments verbatim,
    or the plain working-tree diff. *)
Definition scope_args (sc : DiffScope) : list string :=
  match sc with
  | ScopeStaged | ScopeDefaultStaged => ["--cached"]
  | ScopeFile p => ["--"; p]
  | ScopeCommitRange c => [c]
  | ScopeSingleCommit c => [c ++ "^.." ++ c]
  | ScopeRawArgs l => l
  | ScopeUnstaged => []
  end.

End ScopeTable.

(** The text payloads of a fragment sequence, in order. *)
Definition payloads (frags : list Gemini.fragment) : list string :=
  flat_map (fun f => match f with Some t => [t] | None => [] end) frags.

(** Their concatenation. *)
Definition document (frags : list Gemini.fragment) : string :=
  fold_right String.append "" (payloads frags).

(** ** Sample inputs: an empty environment, a [git] and a Gemini client
    that answer with fixed text, and the options of a bare
    [pr-review review]. *)
Module Samples.
Import Effects Gemini Cli.

Definition env_empty : string -> option string := fun _ => None.

Definition env_gemini_key : string -> option string :=
  fun name => if String.eqb name "GEMINI_API_KEY" then Some "key" else None.

Definition git_answers (stdout : string) : list string -> string + string :=
  fun _ => inl stdout.

Definition gemini_answers (stream : list fragment)
    : string -> string -> string -> list fragment + string :=
  fun _ _ _ => inl stream.

Definition review_defaults : ReviewOpts := {|
  opt_staged := false; opt_unstaged := false; opt_file := None;
  opt_commit := None; opt_max_chars := None; opt_provider := None;
  opt_model := None; opt_ignore_errors := false; opt_diff_args := [];
  opt_verbose := false
|}.

Definition env_openai_key : string -> option string :=
  fun name => if String.eqb name "OPENAI_API_KEY" then Some "key" else None.

Definition git_fails (stderr : string) : list string -> string + string :=
  fun _ => inr stderr.

Definition gemini_fails (message : string)
    : string -> string -> string -> list fragment + string :=
  fun _ _ _ => inr message.

Definition review_openai : ReviewOpts := {|
  opt_staged := false; opt_unstaged := false; opt_file := None;
  opt_commit := None; opt_max_chars := None; opt_provider := Some "openai";
  opt_model := None; opt_ignore_errors := false; opt_diff_args := [];
  opt_verbose := false
|}.

End Samples.

(** ** Facts about the string model *)
Module StrFacts.
Import PyStr.

Lemma append_nil_r (s : string) : s ++ "" = s.
Proof. induction s as [|c s IH]; simpl; [reflexivity | now rewrite IH]. Qed.

Lemma append_assoc (a b c : string) : a ++ (b ++ c) = (a ++ b) ++ c.
Proof. induction a as [|x a IH]; simpl; [reflexivity | now rewrite IH]. Qed.

Lemma length_append (a b : string) :
  String.length (a ++ b) = String.length a + String.length b.
Proof. induction a as [|x a IH]; simpl; [reflexivity | now rewrite IH]. Qed.

Lemma substring_full (s : string) : substring 0 (String.length s) s = s.
Proof. induction s as [|c s IH]; simpl; [reflexivity | now rewrite IH]. Qed.

Lemma substring_after_prefix (a b : string) :
  substring (String.length a) (String.length b) (a ++ b) = b.
Proof.
  induction a as [|c a IH]; simpl; [apply substring_full | exact IH].
Qed.

Lemma length_substring_prefix (n : nat) (s : string) :
  n <= String.length s -> String.length (substring 0 n s) = n.
Proof.
  revert n; induction s as [|c s IH]; intros [|n] Hn; simpl in *;
    try reflexivity; try lia.
  rewrite IH; lia.
Qed.

Lemma lstrip_all_space (s : string) :
  Forall (fun c => isspace c = true) (list_ascii_of_string s) -> lstrip s = "".
Proof.
  induction s as [|c s IH]; simpl; intros H; [reflexivity|].
  inversion H as [|? ? Hc Hs]; subst. rewrite Hc. now apply IH.
Qed.

End StrFacts.

(** ** Lemmas on the pipeline *)
Module PipelineFacts.
Import PyStr Effects GitUtils Gemini Formatters StrFacts.

Lemma stream_loop_result (frags : list fragment) (acc : string) :
  snd (stream_loop acc frags) = inl (acc ++ document frags).
Proof.
  revert acc; induction frags as [|[t|] rest IH]; intros acc; simpl.
  - now rewrite append_nil_r.
  - unfold bind; simpl.
    destruct (stream_loop (acc ++ t) rest) as [tr r] eqn:E; simpl.
    specialize (IH (acc ++ t)); rewrite E in IH; simpl in IH.
    rewrite IH. unfold document; simpl. rewrite append_assoc. reflexivity.
  - exact (IH acc).
Qed.

Lemma print_response_result (frags : list fragment) :
  snd (print_response frags)
  = inl (negb (contains "MAKE CHANGES" (upper (document frags)))).
Proof.
  unfold print_response, bind.
  pose proof (stream_loop_result frags "") as H.
  destruct (stream_loop "" frags) as [tr r]; simpl in H; subst r.
  simpl.
  destruct (contains "MAKE CHANGES" (upper (document frags)));
    [destruct (contains "Conclusion: MAKE CHANGES" (document frags))
    |destruct (contains "Conclusion: APPROVED" (document frags))];
    reflexivity.
Qed.


(** The [Formatters] model is the part of [Stream] without failing steps. *)
Lemma stream_loop_of_fragments (frags : list fragment) (acc : string) :
  Stream.stream_loop acc (map Stream.of_fragment frags) = stream_loop acc frags.
Proof.
  revert acc; induction frags as [|[t|] rest IH]; intros acc; simpl;
    [reflexivity| rewrite IH; reflexivity | exact (IH acc)].
Qed.

Lemma print_response_of_fragments (frags : list fragment) :
  Stream.print_response (map Stream.of_fragment frags) = print_response frags.
Proof.
  unfold Stream.print_response, print_response.
  rewrite stream_loop_of_fragments. reflexivity.
Qed.

End PipelineFacts.

(** ** The claims *)
Module Claims.
Import PyStr Effects GitUtils Gemini Providers Formatters Cli StrFacts PipelineFacts.

(** C9: [make_prompt d] is one constant header followed by [d], so the
    prompt ends with [d] unchanged; the header contains the tokens
    [APPROVED] and [MAKE CHANGES] and tells the model not to wrap its
    answer in code fences. *)
Theorem make_prompt_header_then_diff :
  exists h : string,
    (forall d, make_prompt d = h ++ d
               /\ substring (String.length h) (String.length d) (make_prompt d) = d)
    /\ contains "APPROVED" h = true
    /\ contains "MAKE CHANGES" h = true
    /\ contains "Do not wrap your entire response in markdown code fences" h = true.
Proof.
  exists header; split.
  - intros d; split; [reflexivity|]. apply substring_after_prefix.
  - vm_compute; repeat split.
Qed.



(** C2: [print_response] returns [False] exactly when the uppercased
    document contains [MAKE CHANGES], whatever status line it prints; the
    empty document is approved. *)
Theorem print_response_verdict :
  (forall frags : list fragment,
      snd (print_response frags)
      = inl (negb (contains "MAKE CHANGES" (upper (document frags)))))
  /\ snd (print_response []) = inl true.
Proof.
  split; [exact print_response_result | reflexivity].
Qed.

(** C10: [max_chars = 0] means no limit: [get_git_diff] behaves as with
    [max_chars = None], returning the diff text unchanged. *)
Theorem get_git_diff_zero_is_no_limit :
  (forall git staged unstaged file_path commit diff_args,
      get_git_diff git staged unstaged file_path commit diff_args (Some 0%Z)
      = get_git_diff git staged unstaged file_path commit diff_args None)
  /\ (forall diff_text, truncate_diff (Some 0%Z) diff_text = diff_text).
Proof.
  split; [intros; reflexivity | intros; reflexivity].
Qed.

(** C4: [construct_diff_command] yields [git diff] followed by the
    arguments of the scope chosen by the precedence table: staged, file
    path, commit range or single commit, raw arguments, staged default
    unless unstaged. *)
Theorem construct_diff_command_precedence :
  forall staged unstaged file_path commit diff_args,
    construct_diff_command staged unstaged file_path commit diff_args
    = app ["git"; "diff"]
          (ScopeTable.scope_args
             (ScopeTable.resolve_scope staged unstaged file_path commit diff_args)).
Proof.
  intros staged unstaged file_path commit diff_args.
  unfold construct_diff_command, ScopeTable.resolve_scope, ScopeTable.given,
    opt_truthy, opt_get, truthy.
  destruct staged; [reflexivity|].
  destruct file_path as [p|]; [destruct (String.eqb p "") eqn:Ep; simpl; [|reflexivity]|];
  (destruct commit as [c|]; [destruct (String.eqb c "") eqn:Ec; simpl|]);
  try (destruct (contains ".." c); reflexivity);
  destruct diff_args; try reflexivity; destruct unstaged; reflexivity.
Qed.

(** C5: with [0 < max_chars = M < L = len(diff)], [get_git_diff] returns
    the first [M] characters followed by a notice, of total length [M]
    plus the notice's, and the notice ends by stating [L]; with [L <= M]
    the text is returned unchanged. *)
Theorem get_git_diff_truncation :
  forall git staged unstaged file_path commit diff_args d (M : Z),
    git (construct_diff_command staged unstaged file_path commit diff_args) = inl d ->
    (0 < M)%Z ->
    ((M < Z.of_nat (String.length d))%Z ->
     exists notice,
       snd (get_git_diff git staged unstaged file_path commit diff_args (Some M))
       = inl (substring 0 (Z.to_nat M) d ++ notice)
       /\ String.length (substring 0 (Z.to_nat M) d) = Z.to_nat M
       /\ String.length (substring 0 (Z.to_nat M) d ++ notice)
          = Z.to_nat M + String.length notice
       /\ exists pre, notice = pre ++ "Original size: "
                               ++ of_Z (Z.of_nat (String.length d)) ++ " characters]")
    /\ ((Z.of_nat (String.length d) <= M)%Z ->
        snd (get_git_diff git staged unstaged file_path commit diff_args (Some M))
        = inl d).
Proof.
  intros git staged unstaged file_path commit diff_args d M Hgit HM.
  unfold get_git_diff, bind, emit; simpl; rewrite Hgit; simpl.
  unfold truncate_diff.
  assert (H0 : (M =? 0)%Z = false) by (apply Z.eqb_neq; lia).
  rewrite H0; simpl.
  split.
  - intros HL. apply Z.ltb_lt in HL as HL'. rewrite HL'.
    unfold slice_upto. assert (HM' : (0 <=? M)%Z = true) by (apply Z.leb_le; lia).
    rewrite HM'.
    exists (String "010" (String "010" "") ++ "[Diff truncated to " ++ of_Z M
            ++ " characters. Original size: " ++ of_Z (Z.of_nat (String.length d))
            ++ " characters]").
    split; [reflexivity|].
    split; [apply length_substring_prefix; lia|].
    split; [rewrite length_append, length_substring_prefix; [reflexivity | lia]|].
    exists (String "010" (String "010" "") ++ "[Diff truncated to " ++ of_Z M
            ++ " characters. ").
    rewrite <- !append_assoc. reflexivity.
  - intros HL. assert (HL' : (M <? Z.of_nat (String.length d))%Z = false)
      by (apply Z.ltb_ge; lia).
    rewrite HL'. reflexivity.
Qed.

(** C7: a provider other than [gemini] makes [send_to_provider] raise a
    [PrReviewError] with exit code 4 and no Gemini call: "not yet
    implemented" for [openai] and [anthropic], "Unknown provider"
    otherwise. *)
Theorem send_to_provider_non_gemini :
  forall gemini prompt provider model api_key,
    provider <> "gemini" ->
    send_to_provider gemini prompt provider model api_key
    = ([EvSendToProvider provider],
       inr (PrReviewError
              (if String.eqb provider "openai" then "OpenAI provider not yet implemented"
               else if String.eqb provider "anthropic"
               then "Anthropic provider not yet implemented"
               else "Unknown provider: " ++ provider) 4)).
Proof.
  intros gemini prompt provider model api_key Hp.
  apply String.eqb_neq in Hp.
  unfold send_to_provider, bind, emit, try_except; simpl.
  rewrite Hp.
  destruct (String.eqb provider "openai"); [reflexivity|].
  destruct (String.eqb provider "anthropic"); reflexivity.
Qed.

(** C1 (as the code has it): when the API key resolves to empty (no
    non-empty [<PROVIDER>_API_KEY] variable and no non-empty [api_keys]
    entry; [review] has no key option), the run prints the "API Key Error"
    panel and exits with status 1, before any [git] run or provider call. *)
Theorem missing_api_key_exits_1 :
  forall env git gemini config o,
    resolve_api_key env config (active_provider config o) = "" ->
    run_review env git gemini config o
    = ([EvPanel "API Key Error" (api_key_error_msg (active_provider config o))], 1%Z).
Proof.
  intros env git gemini config o Hk.
  unfold run_review, review_command; cbv zeta.
  rewrite Hk. reflexivity.
Qed.

(** C6: when the API key is set and the acquired diff text is made of
    whitespace only, the run prints "No changes found." and exits 0; the
    prompt is never built and no provider is called. *)
Theorem blank_diff_exits_0 :
  forall env git gemini config o d,
    resolve_api_key env config (active_provider config o) <> "" ->
    git (construct_diff_command (opt_staged o) (opt_unstaged o) (opt_file o)
           (opt_commit o) (opt_diff_args o)) = inl d ->
    Forall (fun c => isspace c = true)
           (list_ascii_of_string (truncate_diff (opt_max_chars o) d)) ->
    run_review env git gemini config o
    = ([EvGitRun (construct_diff_command (opt_staged o) (opt_unstaged o) (opt_file o)
                    (opt_commit o) (opt_diff_args o));
        EvPanel "Information" "No changes found."], 0%Z).
Proof.
  intros env git gemini config o d Hk Hgit Hblank.
  assert (Htk : truthy (resolve_api_key env config (active_provider config o)) = true)
    by (unfold truthy; apply String.eqb_neq in Hk; now rewrite Hk).
  assert (Hs : strip (truncate_diff (opt_max_chars o) d) = "")
    by (unfold strip; rewrite (lstrip_all_space _ Hblank); reflexivity).
  unfold run_review, review_command; cbv zeta.
  rewrite Htk.
  unfold get_git_diff; cbv zeta. rewrite Hgit.
  unfold bind at 2 3 4; simpl.
  rewrite Hs. reflexivity.
Qed.

(** C3: in a run that reaches the verdict (key set, [git] succeeds, the
    diff text is not blank, the Gemini stream is obtained), the exit
    status is 0 when [print_response] approves, 1 when it requests
    changes, and 0 whatever the verdict under [--ignore-errors]. *)
Theorem verdict_exit_status :
  forall env git gemini config o d stream review_passed,
    resolve_api_key env config (active_provider config o) <> "" ->
    git (construct_diff_command (opt_staged o) (opt_unstaged o) (opt_file o)
           (opt_commit o) (opt_diff_args o)) = inl d ->
    strip (truncate_diff (opt_max_chars o) d) <> "" ->
    active_provider config o = "gemini" ->
    gemini (make_prompt (truncate_diff (opt_max_chars o) d))
           (resolve_api_key env config (active_provider config o))
           (active_model config o) = inl stream ->
    snd (print_response stream) = inl review_passed ->
    snd (run_review env git gemini config o)
    = (if opt_ignore_errors o then 0 else if review_passed then 0 else 1)%Z.
Proof.
  intros env git gemini config o d stream review_passed Hk Hgit Hd Hp Hgem Hv.
  assert (Htk : truthy (resolve_api_key env config (active_provider config o)) = true)
    by (unfold truthy; apply String.eqb_neq in Hk; now rewrite Hk).
  assert (Htd : truthy (strip (truncate_diff (opt_max_chars o) d)) = true)
    by (unfold truthy; apply String.eqb_neq in Hd; now rewrite Hd).
  unfold run_review, review_command; cbv zeta.
  rewrite Htk.
  unfold get_git_diff; cbv zeta. rewrite Hgit.
  unfold bind at 2 3 4; simpl.
  rewrite Htd; simpl.
  rewrite Hp in Hgem |- *.
  unfold send_to_provider, send_to_gemini; simpl.
  rewrite Hgem; simpl.
  destruct (print_response stream) as [tr r]; simpl in Hv; subst r; simpl.
  destruct (opt_ignore_errors o), review_passed; reflexivity.
Qed.

(** ** Witnesses: each theorem with hypotheses applied to sample inputs *)

Lemma get_git_diff_truncation_witness :
  (0 < 3)%Z /\
  ((3 < Z.of_nat (String.length "abcdefgh"))%Z ->
   exists notice,
     snd (get_git_diff (Samples.git_answers "abcdefgh") false false None None [] (Some 3%Z))
     = inl (substring 0 (Z.to_nat 3) "abcdefgh" ++ notice)
     /\ String.length (substring 0 (Z.to_nat 3) "abcdefgh") = Z.to_nat 3
     /\ String.length (substring 0 (Z.to_nat 3) "abcdefgh" ++ notice)
        = Z.to_nat 3 + String.length notice
     /\ exists pre, notice = pre ++ "Original size: "
                             ++ of_Z (Z.of_nat (String.length "abcdefgh")) ++ " characters]").
Proof.
  split; [lia|].
  apply (proj1 (get_git_diff_truncation (Samples.git_answers "abcdefgh")
                  false false None None [] "abcdefgh" 3 eq_refl ltac:(lia))).
Defined.

Lemma send_to_provider_non_gemini_witness :
  "openai" <> "gemini" /\
  send_to_provider (Samples.gemini_answers []) "prompt" "openai" "model" "key"
  = ([EvSendToProvider "openai"],
     inr (PrReviewError "OpenAI provider not yet implemented" 4)).
Proof.
  split; [apply String.eqb_neq; reflexivity|].
  apply (send_to_provider_non_gemini (Samples.gemini_answers []) "prompt" "openai"
           "model" "key").
  apply String.eqb_neq; reflexivity.
Defined.

Lemma missing_api_key_exits_1_witness :
  resolve_api_key Samples.env_empty DEFAULT_CONFIG
    (active_provider DEFAULT_CONFIG Samples.review_defaults) = "" /\
  run_review Samples.env_empty (Samples.git_answers "diff") (Samples.gemini_answers [])
    DEFAULT_CONFIG Samples.review_defaults
  = ([EvPanel "API Key Error"
        (api_key_error_msg (active_provider DEFAULT_CONFIG Samples.review_defaults))], 1%Z).
Proof.
  split; [reflexivity|].
  apply missing_api_key_exits_1; reflexivity.
Defined.

Lemma blank_diff_exits_0_witness :
  resolve_api_key Samples.env_gemini_key DEFAULT_CONFIG
    (active_provider DEFAULT_CONFIG Samples.review_defaults) <> "" /\
  run_review Samples.env_gemini_key (Samples.git_answers (String "010" " "))
    (Samples.gemini_answers []) DEFAULT_CONFIG Samples.review_defaults
  = ([EvGitRun ["git"; "diff"; "--cached"];
      EvPanel "Information" "No changes found."], 0%Z).
Proof.
  split; [apply String.eqb_neq; reflexivity|].
  apply (blank_diff_exits_0 Samples.env_gemini_key (Samples.git_answers (String "010" " "))
           (Samples.gemini_answers []) DEFAULT_CONFIG Samples.review_defaults
           (String "010" " ")).
  - apply String.eqb_neq; reflexivity.
  - reflexivity.
  - simpl; repeat constructor.
Defined.

Lemma verdict_exit_status_witness :
  snd (print_response [Some "Conclusion: MAKE CHANGES"]) = inl false /\
  snd (run_review Samples.env_gemini_key (Samples.git_answers "diff --git a/x b/x")
         (Samples.gemini_answers [Some "Conclusion: MAKE CHANGES"])
         DEFAULT_CONFIG Samples.review_defaults) = 1%Z.
Proof.
  split; [reflexivity|].
  apply (verdict_exit_status Samples.env_gemini_key (Samples.git_answers "diff --git a/x b/x")
           (Samples.gemini_answers [Some "Conclusion: MAKE CHANGES"])
           DEFAULT_CONFIG Samples.review_defaults "diff --git a/x b/x"
           [Some "Conclusion: MAKE CHANGES"] false).
  - apply String.eqb_neq; reflexivity.
  - reflexivity.
  - apply String.eqb_neq; vm_compute; reflexivity.
  - reflexivity.
  - reflexivity.
  - reflexivity.
Defined.

(** ** Counterexample *)

(** C1 as stated promises exit code 4 for a missing API key; with no
    key anywhere the run exits with status 1. *)
Lemma missing_api_key_not_exit_4 :
  resolve_api_key Samples.env_empty DEFAULT_CONFIG
    (active_provider DEFAULT_CONFIG Samples.review_defaults) = "" /\
  snd (run_review Samples.env_empty (Samples.git_answers "diff --git a/x b/x")
         (Samples.gemini_answers []) DEFAULT_CONFIG Samples.review_defaults) <> 4%Z.
Proof.
  split; [reflexivity | vm_compute; discriminate].
Qed.

End Claims.

(** ** Lemmas for the further properties *)
Module ExtraFacts.
Import PyStr Effects GitUtils Gemini Formatters Cli Highlight StrFacts PipelineFacts.

Lemma prefix_spec (n h : string) :
  prefix n h = true <-> exists y, h = n ++ y.
Proof.
  revert h; induction n as [|c n IH]; intros h.
  - split; [intros _; now exists h | intros _; destruct h; reflexivity].
  - destruct h as [|d h]; simpl.
    + split; [discriminate | intros [y Hy]; discriminate].
    + destruct (ascii_dec c d) as [->|Hcd].
      * rewrite IH. split; intros [y Hy]; exists y; [now subst | now injection Hy].
      * split; [discriminate | intros [y Hy]; injection Hy; intros; congruence].
Qed.

Lemma contains_spec (n h : string) :
  contains n h = true <-> exists x y, h = x ++ n ++ y.
Proof.
  induction h as [|c h IH].
  - destruct n as [|c n]; simpl; split.
    + intros _. now exists "", "".
    + reflexivity.
    + discriminate.
    + intros [x [y Hxy]]. destruct x; discriminate.
  - change ((prefix n (String c h) || contains n h)%bool = true
            <-> exists x y, String c h = x ++ n ++ y).
    rewrite Bool.orb_true_iff, prefix_spec, IH. split.
    + intros [[y Hy] | [x [y Hxy]]].
      * exists "", y. exact Hy.
      * exists (String c x), y. simpl. now rewrite Hxy.
    + intros [x [y Hxy]]. destruct x as [|d x].
      * left. exists y. exact Hxy.
      * right. injection Hxy as -> Hh. now exists x, y.
Qed.






(** The invariant of the [highlight_diff] loop: the names it keeps. *)
Lemma diff_loop_names (lines : list string) :
  forall files current_file current_file_name,
    (current_file_name = None \/ current_file <> []) ->
    map fst (diff_loop files current_file current_file_name lines)
    = app (map fst files)
        (app (if opt_truthy current_file_name then [opt_get current_file_name] else [])
             (filter truthy (map header_name (filter is_header lines)))).
Proof.
  induction lines as [|line rest IH]; intros files cur nm Hinv; simpl.
  - destruct cur as [|l cur].
    + destruct Hinv as [-> | H]; [|congruence]. simpl. now rewrite !app_nil_r.
    + destruct (opt_truthy nm); simpl; rewrite ?map_app, ?app_nil_r; reflexivity.
  - destruct (is_header line).
    + rewrite IH by (right; discriminate). simpl.
      destruct cur as [|l cur].
      * destruct Hinv as [-> | H]; [|congruence]. simpl.
        destruct (truthy (header_name line)); reflexivity.
      * destruct (opt_truthy nm); simpl; rewrite ?map_app, <- ?app_assoc;
          destruct (truthy (header_name line)); reflexivity.
    + rewrite IH by (right; destruct cur; discriminate). reflexivity.
Qed.

Lemma split_ws_no_space (p : string) :
  Forall (fun c => isspace c = false) (list_ascii_of_string p) ->
  forall acc rest, split_ws_aux acc (p ++ rest) = split_ws_aux (acc ++ p) rest.
Proof.
  induction p as [|c p IH]; intros Hp acc rest; simpl.
  - now rewrite append_nil_r.
  - inversion Hp as [|? ? Hc Hp']; subst. rewrite Hc, IH by exact Hp'.
    now rewrite <- append_assoc.
Qed.

Lemma lstrip_chars_a_slash (p : string) :
  Forall (fun c => c = "a"%char \/ c = "/"%char) (list_ascii_of_string p) ->
  lstrip_chars "a/" p = "".
Proof.
  induction p as [|c p IH]; simpl; intros H; [reflexivity|].
  inversion H as [|? ? Hc Hp]; subst.
  destruct Hc as [-> | ->]; simpl; now apply IH.
Qed.

Lemma header_name_of_paths (p q : string) :
  Forall (fun c => isspace c = false) (list_ascii_of_string p) ->
  header_name ("diff --git a/" ++ p ++ " b/" ++ q) = lstrip_chars "a/" p.
Proof.
  intros Hp. unfold header_name, split_ws. simpl.
  rewrite (split_ws_no_space p Hp). reflexivity.
Qed.

Lemma review_command_no_key env git gemini config o :
  resolve_api_key env config (active_provider config o) = "" ->
  review_command env git gemini config o
  = ([EvPanel "API Key Error" (api_key_error_msg (active_provider config o))],
     inr (SystemExit 1)).
Proof.
  intros Hk. unfold review_command; cbv zeta. rewrite Hk. reflexivity.
Qed.

Lemma truthy_of_neq (s : string) : s <> "" -> truthy s = true.
Proof. intros H. unfold truthy. apply String.eqb_neq in H. now rewrite H. Qed.

End ExtraFacts.

(** ** Facts about the configuration commands *)
Module ConfigFacts.
Import PyStr Effects Traces ConfigCmd StrFacts ExtraFacts.

Lemma dict_mem_lookup (d : dict) (k : string) :
  dict_mem d k = match dict_lookup d k with Some _ => true | None => false end.
Proof.
  unfold dict_mem. induction d as [|[k' v'] d IH]; simpl; [reflexivity|].
  destruct (String.eqb k' k); simpl; auto.
Qed.

Lemma dict_lookup_app (d e : dict) (k : string) :
  dict_lookup (app d e) k =
  match dict_lookup d k with Some v => Some v | None => dict_lookup e k end.
Proof.
  induction d as [|[k' v'] d IH]; simpl; [reflexivity|].
  destruct (String.eqb k' k); auto.
Qed.

Lemma dict_lookup_set (d : dict) (k : string) (v : toml_value) :
  dict_lookup (dict_set d k v) k = Some v.
Proof.
  unfold dict_set. rewrite dict_mem_lookup.
  destruct (dict_lookup d k) as [x|] eqn:E.
  - revert E. induction d as [|[k' v'] d IH]; simpl; intros E; [discriminate|].
    destruct (String.eqb k' k) eqn:Ek; simpl.
    + now rewrite String.eqb_refl.
    + rewrite Ek. auto.
  - rewrite dict_lookup_app, E. simpl. now rewrite String.eqb_refl.
Qed.

Lemma dict_mem_set (d : dict) (k : string) (v : toml_value) :
  dict_mem (dict_set d k v) k = true.
Proof. now rewrite dict_mem_lookup, dict_lookup_set. Qed.

Lemma dict_lookup_del (d : dict) (k : string) :
  dict_lookup (dict_del d k) k = None.
Proof.
  unfold dict_del. induction d as [|[k' v'] d IH]; simpl; [reflexivity|].
  destruct (String.eqb k' k) eqn:Ek; simpl; [exact IH|].
  rewrite Ek. exact IH.
Qed.

Lemma dict_mem_del (d : dict) (k : string) : dict_mem (dict_del d k) k = false.
Proof. now rewrite dict_mem_lookup, dict_lookup_del. Qed.

Lemma walk_set_in (path : list string) : forall d last v,
  walk (VDict (set_in d path last v)) (app path [last]) = inl (Some v).
Proof.
  induction path as [|part rest IH]; intros d last v; cbn [set_in app walk py_in py_getitem].
  - now rewrite dict_mem_set, dict_lookup_set.
  - rewrite dict_mem_set, dict_lookup_set. apply IH.
Qed.

Lemma unset_in_set_in (path : list string) : forall d last v,
  exists d', unset_in (VDict (set_in d path last v)) path last = inl (Some (VDict d'))
             /\ walk (VDict d') (app path [last]) = inl None.
Proof.
  induction path as [|part rest IH]; intros d last v; cbn [set_in unset_in py_in py_delitem].
  - rewrite dict_mem_set. eexists; split; [reflexivity|].
    cbn [app walk py_in]. now rewrite dict_mem_del.
  - rewrite dict_mem_set. cbn [py_getitem]. rewrite dict_lookup_set.
    lazymatch goal with
    | |- context [unset_in (VDict (set_in ?sub rest last v)) rest last] =>
        destruct (IH sub last v) as [d' [H1 H2]]; rewrite H1
    end.
    eexists; split; [reflexivity|].
    cbn [app walk py_in py_getitem]. rewrite dict_mem_set, dict_lookup_set. exact H2.
Qed.

Lemma split_on_aux_nonempty (sep : ascii) (s : string) : forall acc,
  split_on_aux sep acc s <> [].
Proof.
  induction s as [|c s IH]; intros acc; simpl; [discriminate|].
  destruct (Ascii.eqb c sep); [discriminate|apply IH].
Qed.

Lemma split_on_parts (key : string) :
  split_on "." key
  = app (removelast (split_on "." key)) [List.last (split_on "." key) ""].
Proof. apply app_removelast_last, split_on_aux_nonempty. Qed.

Lemma get_value_set (config : dict) (key value : string) :
  get_value (set_config config key value) key = inl (Some (parse_value value)).
Proof.
  unfold get_value, set_config. destruct (contains "." key).
  - cbv zeta. pose proof (split_on_parts key) as Hp.
    set (r := removelast (split_on "." key)) in *.
    set (l := List.last (split_on "." key) "") in *.
    clearbody r l. rewrite Hp. apply walk_set_in.
  - now rewrite dict_mem_set, dict_lookup_set.
Qed.

Lemma unset_config_set (config : dict) (key value : string) :
  exists c2, unset_config (set_config config key value) key = inl (Some c2)
             /\ get_value c2 key = inl None.
Proof.
  unfold unset_config, get_value, set_config. destruct (contains "." key).
  - cbv zeta.
    destruct (unset_in_set_in (removelast (split_on "." key)) config
                (List.last (split_on "." key) "") (parse_value value)) as [d' [H1 H2]].
    rewrite H1. exists d'. split; [reflexivity|].
    rewrite split_on_parts. exact H2.
  - rewrite dict_mem_set. eexists; split; [reflexivity|]. now rewrite dict_mem_del.
Qed.

Lemma split_on_no_dot (k : string) : forall acc rest,
  contains "." k = false ->
  split_on_aux "." acc (k ++ rest) = split_on_aux "." (acc ++ k) rest.
Proof.
  induction k as [|c k IH]; intros acc rest H; simpl.
  - now rewrite append_nil_r.
  - assert (Hc : c <> "."%char) by (intros ->; simpl in H; destruct k; discriminate H).
    change ((prefix "." (String c k) || contains "." k)%bool = false) in H.
    apply Bool.orb_false_iff in H as [_ H].
    destruct (Ascii.eqb_spec c "."); [contradiction|].
    rewrite IH by exact H.
    now rewrite <- append_assoc.
Qed.

Lemma split_on_dotted (k p : string) :
  contains "." k = false -> contains "." p = false ->
  split_on "." (k ++ "." ++ p) = [k; p].
Proof.
  intros Hk Hp. unfold split_on. rewrite split_on_no_dot by exact Hk.
  simpl. rewrite <- (append_nil_r p) at 1. rewrite split_on_no_dot by exact Hp.
  simpl. reflexivity.
Qed.

Lemma contains_dotted (k p : string) : contains "." (k ++ "." ++ p) = true.
Proof. apply contains_spec. now exists k, p. Qed.

End ConfigFacts.


(** ** Further properties of the code *)
Module Extras.
Import PyStr Effects Traces GitUtils Gemini Providers Formatters Cli Highlight CliMain
  StrFacts PipelineFacts ExtraFacts.

(** A failing [git diff] (after the key check) ends the review with the
    "Git error" panel carrying git's stripped standard error, followed by
    the traceback under [--verbose], and exit status 3; no prompt is built
    and no provider is called. *)
Theorem review_git_error_exits_3 :
  forall env git gemini config o err,
    resolve_api_key env config (active_provider config o) <> "" ->
    git (construct_diff_command (opt_staged o) (opt_unstaged o) (opt_file o)
           (opt_commit o) (opt_diff_args o)) = inr err ->
    run_review env git gemini config o
    = (app [EvGitRun (construct_diff_command (opt_staged o) (opt_unstaged o) (opt_file o)
                    (opt_commit o) (opt_diff_args o));
        EvPanel "Error" ("Error: Git error: " ++ strip err)]
         (if opt_verbose o then [EvTraceback] else []), 3%Z).
Proof.
  intros env git gemini config o err Hk Hgit.
  unfold run_review, review_command; cbv zeta.
  rewrite (truthy_of_neq _ Hk).
  unfold get_git_diff; cbv zeta. rewrite Hgit.
  destruct (opt_verbose o); reflexivity.
Qed.

(** With a key set and a non-blank diff, a provider other than [gemini]
    fails only after [git diff] has run and the prompt has been built:
    the run ends with the provider's error panel (and the traceback under
    [--verbose]) and exit status 4, with no Gemini call. *)
Theorem review_unsupported_provider_exits_4 :
  forall env git gemini config o d,
    resolve_api_key env config (active_provider config o) <> "" ->
    git (construct_diff_command (opt_staged o) (opt_unstaged o) (opt_file o)
           (opt_commit o) (opt_diff_args o)) = inl d ->
    strip (truncate_diff (opt_max_chars o) d) <> "" ->
    active_provider config o <> "gemini" ->
    run_review env git gemini config o
    = (app [EvGitRun (construct_diff_command (opt_staged o) (opt_unstaged o) (opt_file o)
                    (opt_commit o) (opt_diff_args o));
        EvMakePrompt (truncate_diff (opt_max_chars o) d);
        EvSendToProvider (active_provider config o);
        EvPanel "Error"
          ("Error: " ++
           (if String.eqb (active_provider config o) "openai"
            then "OpenAI provider not yet implemented"
            else if String.eqb (active_provider config o) "anthropic"
            then "Anthropic provider not yet implemented"
            else "Unknown provider: " ++ active_provider config o))]
         (if opt_verbose o then [EvTraceback] else []), 4%Z).
Proof.
  intros env git gemini config o d Hk Hgit Hd Hp.
  unfold run_review, review_command; cbv zeta.
  rewrite (truthy_of_neq _ Hk).
  unfold get_git_diff; cbv zeta. rewrite Hgit.
  unfold bind at 2 3 4; simpl.
  rewrite (truthy_of_neq _ Hd); simpl.
  unfold send_to_provider; simpl.
  apply String.eqb_neq in Hp. rewrite Hp.
  destruct (String.eqb (active_provider config o) "openai");
    [|destruct (String.eqb (active_provider config o) "anthropic")];
    destruct (opt_verbose o); reflexivity.
Qed.

(** When the [generate_content] call itself raises (before it hands out
    the stream), the exception is wrapped into the provider error: the run
    ends with "Error with AI provider gemini: " and the exception text
    (then the traceback under [--verbose]), exit status 4, after exactly
    one Gemini call.  Errors raised later, while [print_response] reads
    the stream, are outside this statement. *)
Theorem review_gemini_failure_exits_4 :
  forall env git gemini config o d msg,
    resolve_api_key env config (active_provider config o) <> "" ->
    git (construct_diff_command (opt_staged o) (opt_unstaged o) (opt_file o)
           (opt_commit o) (opt_diff_args o)) = inl d ->
    strip (truncate_diff (opt_max_chars o) d) <> "" ->
    active_provider config o = "gemini" ->
    gemini (make_prompt (truncate_diff (opt_max_chars o) d))
           (resolve_api_key env config (active_provider config o))
           (active_model config o) = inr msg ->
    run_review env git gemini config o
    = (app [EvGitRun (construct_diff_command (opt_staged o) (opt_unstaged o) (opt_file o)
                    (opt_commit o) (opt_diff_args o));
        EvMakePrompt (truncate_diff (opt_max_chars o) d);
        EvSendToProvider "gemini";
        EvGeminiCall (active_model config o);
        EvPanel "Error" ("Error: Error with AI provider gemini: " ++ msg)]
         (if opt_verbose o then [EvTraceback] else []), 4%Z).
Proof.
  intros env git gemini config o d msg Hk Hgit Hd Hp Hgem.
  unfold run_review, review_command; cbv zeta.
  rewrite (truthy_of_neq _ Hk).
  unfold get_git_diff; cbv zeta. rewrite Hgit.
  unfold bind at 2 3 4; simpl.
  rewrite (truthy_of_neq _ Hd); simpl.
  rewrite Hp in Hgem |- *.
  unfold send_to_provider, send_to_gemini; simpl.
  rewrite Hgem. destruct (opt_verbose o); reflexivity.
Qed.

(** A negative [max_chars] (accepted by [--max-chars]) always truncates:
    Python's slice drops the last [|M|] characters (all of them when
    [|M|] is at least the length) and the notice is still appended. *)
Theorem get_git_diff_negative_max_chars :
  forall git staged unstaged file_path commit diff_args d (M : Z),
    git (construct_diff_command staged unstaged file_path commit diff_args) = inl d ->
    (M < 0)%Z ->
    exists notice,
      snd (get_git_diff git staged unstaged file_path commit diff_args (Some M))
      = inl (substring 0 (Z.to_nat (Z.of_nat (String.length d) + M)) d ++ notice)
      /\ Z.of_nat (String.length (substring 0 (Z.to_nat (Z.of_nat (String.length d) + M)) d))
         = Z.max 0 (Z.of_nat (String.length d) + M)
      /\ exists pre, notice = pre ++ "Original size: "
                              ++ of_Z (Z.of_nat (String.length d)) ++ " characters]".
Proof.
  intros git staged unstaged file_path commit diff_args d M Hgit HM.
  unfold get_git_diff, bind, emit; simpl; rewrite Hgit; simpl.
  unfold truncate_diff.
  assert (H0 : (M =? 0)%Z = false) by (apply Z.eqb_neq; lia).
  assert (HL : (M <? Z.of_nat (String.length d))%Z = true) by (apply Z.ltb_lt; lia).
  rewrite H0, HL; simpl.
  unfold slice_upto.
  assert (HM' : (0 <=? M)%Z = false) by (apply Z.leb_gt; lia).
  rewrite HM'.
  exists (String "010" (String "010" "") ++ "[Diff truncated to " ++ of_Z M
          ++ " characters. Original size: " ++ of_Z (Z.of_nat (String.length d))
          ++ " characters]").
  split; [reflexivity|].
  split.
  - rewrite length_substring_prefix by lia. lia.
  - exists (String "010" (String "010" "") ++ "[Diff truncated to " ++ of_Z M
            ++ " characters. ").
    rewrite <- !append_assoc. reflexivity.
Qed.


(** An unreadable or corrupt configuration file stops every [review] run
    in the [cli] group: the "Error loading config" panel (then the
    traceback under [--verbose]) and exit status 2; git and the provider
    are never reached. *)
Theorem corrupt_config_exits_2 :
  forall env git gemini err o,
    run_main_review env git gemini (Some (inr err)) o
    = (app [EvPanel "Error" ("Error: Error loading config: " ++ err)]
           (if opt_verbose o then [EvTraceback] else []), 2%Z).
Proof.
  intros env git gemini err o. destruct o as [? ? ? ? ? ? ? ? ? verbose].
  destruct verbose; reflexivity.
Qed.

(** Without a configuration file the defaults apply, and their API keys
    are empty: with no non-empty [GEMINI_API_KEY] and no [--provider],
    [review] shows the "API Key Error" panel for [GEMINI_API_KEY] and
    exits 1 before running [git]. *)
Theorem fresh_install_without_key_exits_1 :
  forall env git gemini o,
    (env "GEMINI_API_KEY" = None \/ env "GEMINI_API_KEY" = Some "") ->
    opt_provider o = None ->
    run_main_review env git gemini None o
    = ([EvPanel "API Key Error" (api_key_error_msg "gemini")], 1%Z).
Proof.
  intros env git gemini o Henv Hp.
  assert (Hap : active_provider DEFAULT_CONFIG o = "gemini")
    by (unfold active_provider; now rewrite Hp).
  assert (Hk : resolve_api_key env DEFAULT_CONFIG (active_provider DEFAULT_CONFIG o) = "").
  { rewrite Hap. unfold resolve_api_key.
    change (upper "gemini" ++ "_API_KEY") with "GEMINI_API_KEY".
    destruct Henv as [-> | ->]; reflexivity. }
  unfold run_main_review, cli_review, load_config. simpl.
  rewrite (review_command_no_key env git gemini DEFAULT_CONFIG o Hk), Hap.
  reflexivity.
Qed.

(** [pr-review diff] reports a failing [git diff] like [review] does:
    the "Git error" panel (then the traceback under [--verbose]) and exit
    status 3, whatever the colour and size options. *)
Theorem diff_command_git_error_exits_3 :
  forall git verbose staged unstaged file commit max_chars no_color diff_args err,
    git (construct_diff_command staged unstaged file commit diff_args) = inr err ->
    diff_command git verbose staged unstaged file commit max_chars no_color diff_args
    = (app [DEvent (EvGitRun (construct_diff_command staged unstaged file commit diff_args));
            DEvent (EvPanel "Error" ("Error: Git error: " ++ strip err))]
           (if verbose then [DEvent EvTraceback] else []),
       inr (SystemExit 3)).
Proof.
  intros git verbose staged unstaged file commit max_chars no_color diff_args err Hgit.
  unfold diff_command, get_git_diff, liftM, bindT, tryT; simpl.
  rewrite Hgit. destruct verbose; reflexivity.
Qed.

(** [highlight_diff] shows one section per [diff --git] line, in order,
    named by that line's third word with its leading [a] and [/]
    characters removed; sections whose name comes out empty are not
    shown, and lines before the first [diff --git] line belong to none. *)
Theorem highlight_diff_file_names :
  forall diff_text,
    map fst (diff_files diff_text)
    = filter truthy (map header_name (filter is_header (splitlines diff_text))).
Proof.
  intros diff_text. unfold diff_files.
  rewrite diff_loop_names by (left; reflexivity). reflexivity.
Qed.

(** For a header [diff --git a/p b/q], the section name is [p] with its
    leading [a] and [/] characters removed, so it is [p] itself exactly
    when [p] starts with another character. *)
Theorem header_name_strips_a_and_slash :
  forall p q,
    Forall (fun c => isspace c = false) (list_ascii_of_string p) ->
    header_name ("diff --git a/" ++ p ++ " b/" ++ q) = lstrip_chars "a/" p
    /\ (forall c p', p = String c p' -> c <> "a"%char -> c <> "/"%char ->
        header_name ("diff --git a/" ++ p ++ " b/" ++ q) = p).
Proof.
  intros p q Hp.
  rewrite (header_name_of_paths p q Hp).
  split; [reflexivity|].
  intros c p' -> Ha Hs. simpl.
  destruct (ascii_dec c "a") as [E|E]; [congruence|].
  destruct (ascii_dec c "/") as [E'|E']; [congruence|].
  reflexivity.
Qed.

(** A diff whose only [diff --git] line names a path made of [a] and
    [/] characters (a file named [a], say) is displayed as nothing at
    all by [highlight_diff], not even "No changes found.". *)
Theorem highlight_diff_hides_a_paths :
  forall diff_text p q,
    Forall (fun c => c = "a"%char \/ c = "/"%char) (list_ascii_of_string p) ->
    filter is_header (splitlines diff_text) = ["diff --git a/" ++ p ++ " b/" ++ q] ->
    truthy (strip diff_text) = true ->
    highlight_diff diff_text = [].
Proof.
  intros diff_text p q Hp Hh Hs.
  assert (Hn : map fst (diff_files diff_text) = []).
  { unfold diff_files. rewrite diff_loop_names by (left; reflexivity).
    rewrite Hh. cbn [map].
    assert (Hsp : Forall (fun c => isspace c = false) (list_ascii_of_string p)).
    { eapply Forall_impl; [|exact Hp]. intros c [-> | ->]; reflexivity. }
    rewrite (header_name_of_paths p q Hsp), (lstrip_chars_a_slash p Hp).
    reflexivity. }
  unfold highlight_diff. rewrite Hs. simpl.
  destruct (diff_files diff_text); [reflexivity | discriminate].
Qed.

Lemma get_git_diff_negative_max_chars_witness :
  ((Samples.git_answers "abcdef") (construct_diff_command false false None None ([])) = inl "abcdef") /\
  ((((-2)%Z) < 0)%Z) /\
  (exists notice,
      snd (get_git_diff (Samples.git_answers "abcdef") false false None None ([]) (Some ((-2)%Z)))
      = inl (substring 0 (Z.to_nat (Z.of_nat (String.length "abcdef") + ((-2)%Z))) "abcdef" ++ notice)
      /\ Z.of_nat (String.length (substring 0 (Z.to_nat (Z.of_nat (String.length "abcdef") + ((-2)%Z))) "abcdef"))
         = Z.max 0 (Z.of_nat (String.length "abcdef") + ((-2)%Z))
      /\ exists pre, notice = pre ++ "Original size: "
                              ++ of_Z (Z.of_nat (String.length "abcdef")) ++ " characters]").
Proof.
  assert (H0 : (Samples.git_answers "abcdef") (construct_diff_command false false None None ([])) = inl "abcdef") by (vm_compute; reflexivity).
  assert (H1 : (((-2)%Z) < 0)%Z) by (lia).
  exact (conj H0 (conj H1 (get_git_diff_negative_max_chars (Samples.git_answers "abcdef") false false None None ([]) "abcdef" ((-2)%Z) H0 H1))).
Defined.

Lemma fresh_install_without_key_exits_1_witness :
  ((Samples.env_empty "GEMINI_API_KEY" = None \/ Samples.env_empty "GEMINI_API_KEY" = Some "")) /\
  (opt_provider Samples.review_defaults = None) /\
  (run_main_review Samples.env_empty (Samples.git_answers "") (Samples.gemini_answers []) None Samples.review_defaults
    = ([EvPanel "API Key Error" (api_key_error_msg "gemini")], 1%Z)).
Proof.
  assert (H0 : (Samples.env_empty "GEMINI_API_KEY" = None \/ Samples.env_empty "GEMINI_API_KEY" = Some "")) by (left; reflexivity).
  assert (H1 : opt_provider Samples.review_defaults = None) by (vm_compute; reflexivity).
  exact (conj H0 (conj H1 (fresh_install_without_key_exits_1 Samples.env_empty (Samples.git_answers "") (Samples.gemini_answers []) Samples.review_defaults H0 H1))).
Defined.

Lemma header_name_strips_a_and_slash_witness :
  (Forall (fun c => isspace c = false) (list_ascii_of_string "src/main.py")) /\
  (header_name ("diff --git a/" ++ "src/main.py" ++ " b/" ++ "src/main.py") = lstrip_chars "a/" "src/main.py"
    /\ (forall c p', "src/main.py" = String c p' -> c <> "a"%char -> c <> "/"%char ->
        header_name ("diff --git a/" ++ "src/main.py" ++ " b/" ++ "src/main.py") = "src/main.py")).
Proof.
  assert (H0 : Forall (fun c => isspace c = false) (list_ascii_of_string "src/main.py")) by (simpl; repeat constructor).
  exact (conj H0 (header_name_strips_a_and_slash "src/main.py" "src/main.py" H0)).
Defined.

Lemma highlight_diff_hides_a_paths_witness :
  (Forall (fun c => c = "a"%char \/ c = "/"%char) (list_ascii_of_string "a")) /\
  (filter is_header (splitlines ("diff --git a/a b/a" ++ String "010" "+x")) = ["diff --git a/" ++ "a" ++ " b/" ++ "a"]) /\
  (truthy (strip ("diff --git a/a b/a" ++ String "010" "+x")) = true) /\
  (highlight_diff ("diff --git a/a b/a" ++ String "010" "+x") = []).
Proof.
  assert (H0 : Forall (fun c => c = "a"%char \/ c = "/"%char) (list_ascii_of_string "a")) by (simpl; repeat constructor).
  assert (H1 : filter is_header (splitlines ("diff --git a/a b/a" ++ String "010" "+x")) = ["diff --git a/" ++ "a" ++ " b/" ++ "a"]) by (vm_compute; reflexivity).
  assert (H2 : truthy (strip ("diff --git a/a b/a" ++ String "010" "+x")) = true) by (vm_compute; reflexivity).
  exact (conj H0 (conj H1 (conj H2 (highlight_diff_hides_a_paths ("diff --git a/a b/a" ++ String "010" "+x") "a" "a" H0 H1 H2)))).
Defined.

Lemma review_git_error_exits_3_witness :
  (resolve_api_key Samples.env_gemini_key DEFAULT_CONFIG (active_provider DEFAULT_CONFIG Samples.review_defaults) <> "") /\
  ((Samples.git_fails "fatal: bad revision") (construct_diff_command (opt_staged Samples.review_defaults) (opt_unstaged Samples.review_defaults) (opt_file Samples.review_defaults)
           (opt_commit Samples.review_defaults) (opt_diff_args Samples.review_defaults)) = inr "fatal: bad revision") /\
  (run_review Samples.env_gemini_key (Samples.git_fails "fatal: bad revision") (Samples.gemini_answers []) DEFAULT_CONFIG Samples.review_defaults
    = (app [EvGitRun (construct_diff_command (opt_staged Samples.review_defaults) (opt_unstaged Samples.review_defaults) (opt_file Samples.review_defaults)
                    (opt_commit Samples.review_defaults) (opt_diff_args Samples.review_defaults));
        EvPanel "Error" ("Error: Git error: " ++ strip "fatal: bad revision")]
         (if opt_verbose Samples.review_defaults then [EvTraceback] else []), 3%Z)).
Proof.
  assert (H0 : resolve_api_key Samples.env_gemini_key DEFAULT_CONFIG (active_provider DEFAULT_CONFIG Samples.review_defaults) <> "") by (intro Hx; vm_compute in Hx; discriminate Hx).
  assert (H1 : (Samples.git_fails "fatal: bad revision") (construct_diff_command (opt_staged Samples.review_defaults) (opt_unstaged Samples.review_defaults) (opt_file Samples.review_defaults)
           (opt_commit Samples.review_defaults) (opt_diff_args Samples.review_defaults)) = inr "fatal: bad revision") by (vm_compute; reflexivity).
  exact (conj H0 (conj H1 (review_git_error_exits_3 Samples.env_gemini_key (Samples.git_fails "fatal: bad revision") (Samples.gemini_answers []) DEFAULT_CONFIG Samples.review_defaults "fatal: bad revision" H0 H1))).
Defined.

Lemma review_unsupported_provider_exits_4_witness :
  (resolve_api_key Samples.env_openai_key DEFAULT_CONFIG (active_provider DEFAULT_CONFIG Samples.review_openai) <> "") /\
  ((Samples.git_answers "diff --git a/x b/x") (construct_diff_command (opt_staged Samples.review_openai) (opt_unstaged Samples.review_openai) (opt_file Samples.review_openai)
           (opt_commit Samples.review_openai) (opt_diff_args Samples.review_openai)) = inl "diff --git a/x b/x") /\
  (strip (truncate_diff (opt_max_chars Samples.review_openai) "diff --git a/x b/x") <> "") /\
  (active_provider DEFAULT_CONFIG Samples.review_openai <> "gemini") /\
  (run_review Samples.env_openai_key (Samples.git_answers "diff --git a/x b/x") (Samples.gemini_answers []) DEFAULT_CONFIG Samples.review_openai
    = (app [EvGitRun (construct_diff_command (opt_staged Samples.review_openai) (opt_unstaged Samples.review_openai) (opt_file Samples.review_openai)
                    (opt_commit Samples.review_openai) (opt_diff_args Samples.review_openai));
        EvMakePrompt (truncate_diff (opt_max_chars Samples.review_openai) "diff --git a/x b/x");
        EvSendToProvider (active_provider DEFAULT_CONFIG Samples.review_openai);
        EvPanel "Error"
          ("Error: " ++
           (if String.eqb (active_provider DEFAULT_CONFIG Samples.review_openai) "openai"
            then "OpenAI provider not yet implemented"
            else if String.eqb (active_provider DEFAULT_CONFIG Samples.review_openai) "anthropic"
            then "Anthropic provider not yet implemented"
            else "Unknown provider: " ++ active_provider DEFAULT_CONFIG Samples.review_openai))]
         (if opt_verbose Samples.review_openai then [EvTraceback] else []), 4%Z)).
Proof.
  assert (H0 : resolve_api_key Samples.env_openai_key DEFAULT_CONFIG (active_provider DEFAULT_CONFIG Samples.review_openai) <> "") by (intro Hx; vm_compute in Hx; discriminate Hx).
  assert (H1 : (Samples.git_answers "diff --git a/x b/x") (construct_diff_command (opt_staged Samples.review_openai) (opt_unstaged Samples.review_openai) (opt_file Samples.review_openai)
           (opt_commit Samples.review_openai) (opt_diff_args Samples.review_openai)) = inl "diff --git a/x b/x") by (vm_compute; reflexivity).
  assert (H2 : strip (truncate_diff (opt_max_chars Samples.review_openai) "diff --git a/x b/x") <> "") by (intro Hx; vm_compute in Hx; discriminate Hx).
  assert (H3 : active_provider DEFAULT_CONFIG Samples.review_openai <> "gemini") by (intro Hx; vm_compute in Hx; discriminate Hx).
  exact (conj H0 (conj H1 (conj H2 (conj H3 (review_unsupported_provider_exits_4 Samples.env_openai_key (Samples.git_answers "diff --git a/x b/x") (Samples.gemini_answers []) DEFAULT_CONFIG Samples.review_openai "diff --git a/x b/x" H0 H1 H2 H3))))).
Defined.

Lemma review_gemini_failure_exits_4_witness :
  (resolve_api_key Samples.env_gemini_key DEFAULT_CONFIG (active_provider DEFAULT_CONFIG Samples.review_defaults) <> "") /\
  ((Samples.git_answers "diff --git a/x b/x") (construct_diff_command (opt_staged Samples.review_defaults) (opt_unstaged Samples.review_defaults) (opt_file Samples.review_defaults)
           (opt_commit Samples.review_defaults) (opt_diff_args Samples.review_defaults)) = inl "diff --git a/x b/x") /\
  (strip (truncate_diff (opt_max_chars Samples.review_defaults) "diff --git a/x b/x") <> "") /\
  (active_provider DEFAULT_CONFIG Samples.review_defaults = "gemini") /\
  ((Samples.gemini_fails "quota exceeded") (make_prompt (truncate_diff (opt_max_chars Samples.review_defaults) "diff --git a/x b/x"))
           (resolve_api_key Samples.env_gemini_key DEFAULT_CONFIG (active_provider DEFAULT_CONFIG Samples.review_defaults))
           (active_model DEFAULT_CONFIG Samples.review_defaults) = inr "quota exceeded") /\
  (run_review Samples.env_gemini_key (Samples.git_answers "diff --git a/x b/x") (Samples.gemini_fails "quota exceeded") DEFAULT_CONFIG Samples.review_defaults
    = (app [EvGitRun (construct_diff_command (opt_staged Samples.review_defaults) (opt_unstaged Samples.review_defaults) (opt_file Samples.review_defaults)
                    (opt_commit Samples.review_defaults) (opt_diff_args Samples.review_defaults));
        EvMakePrompt (truncate_diff (opt_max_chars Samples.review_defaults) "diff --git a/x b/x");
        EvSendToProvider "gemini";
        EvGeminiCall (active_model DEFAULT_CONFIG Samples.review_defaults);
        EvPanel "Error" ("Error: Error with AI provider gemini: " ++ "quota exceeded")]
         (if opt_verbose Samples.review_defaults then [EvTraceback] else []), 4%Z)).
Proof.
  assert (H0 : resolve_api_key Samples.env_gemini_key DEFAULT_CONFIG (active_provider DEFAULT_CONFIG Samples.review_defaults) <> "") by (intro Hx; vm_compute in Hx; discriminate Hx).
  assert (H1 : (Samples.git_answers "diff --git a/x b/x") (construct_diff_command (opt_staged Samples.review_defaults) (opt_unstaged Samples.review_defaults) (opt_file Samples.review_defaults)
           (opt_commit Samples.review_defaults) (opt_diff_args Samples.review_defaults)) = inl "diff --git a/x b/x") by (vm_compute; reflexivity).
  assert (H2 : strip (truncate_diff (opt_max_chars Samples.review_defaults) "diff --git a/x b/x") <> "") by (intro Hx; vm_compute in Hx; discriminate Hx).
  assert (H3 : active_provider DEFAULT_CONFIG Samples.review_defaults = "gemini") by (vm_compute; reflexivity).
  assert (H4 : (Samples.gemini_fails "quota exceeded") (make_prompt (truncate_diff (opt_max_chars Samples.review_defaults) "diff --git a/x b/x"))
           (resolve_api_key Samples.env_gemini_key DEFAULT_CONFIG (active_provider DEFAULT_CONFIG Samples.review_defaults))
           (active_model DEFAULT_CONFIG Samples.review_defaults) = inr "quota exceeded") by (vm_compute; reflexivity).
  exact (conj H0 (conj H1 (conj H2 (conj H3 (conj H4 (review_gemini_failure_exits_4 Samples.env_gemini_key (Samples.git_answers "diff --git a/x b/x") (Samples.gemini_fails "quota exceeded") DEFAULT_CONFIG Samples.review_defaults "diff --git a/x b/x" "quota exceeded" H0 H1 H2 H3 H4)))))).
Defined.

Lemma diff_command_git_error_exits_3_witness :
  ((Samples.git_fails "fatal: bad revision") (construct_diff_command false false None None ([])) = inr "fatal: bad revision") /\
  (diff_command (Samples.git_fails "fatal: bad revision") true false false None None None false ([])
    = (app [DEvent (EvGitRun (construct_diff_command false false None None ([])));
            DEvent (EvPanel "Error" ("Error: Git error: " ++ strip "fatal: bad revision"))]
           (if true then [DEvent EvTraceback] else []),
       inr (SystemExit 3))).
Proof.
  assert (H0 : (Samples.git_fails "fatal: bad revision") (construct_diff_command false false None None ([])) = inr "fatal: bad revision") by (vm_compute; reflexivity).
  exact (conj H0 (diff_command_git_error_exits_3 (Samples.git_fails "fatal: bad revision") true false false None None None false ([]) "fatal: bad revision" H0)).
Defined.

End Extras.

(** ** Properties of the configuration commands *)
Module ConfigExtras.
Import PyStr Effects Traces ConfigCmd ConfigFacts.

(** [config set KEY VALUE] followed by [config get KEY]: once the updated
    configuration is saved, [get] finds the key in it, for any starting
    configuration and any (dotted) key, and shows the value as [set]
    parsed it ([str] of a boolean, integer or string), masked when the key
    mentions [api_key]. *)
Theorem config_set_then_get (save : dict -> option string) (config : dict)
    (key value : string) :
  save (set_config config key value) = None ->
  config_set save config key value =
    ([CSaved (set_config config key value);
      COut (EvPanel "Configuration Updated"
              ("Updated: " ++ key ++ " = "
               ++ (if contains "api_key" key then "****" else value)))], inl tt)
  /\ config_get (set_config config key value) key =
    ([COut (EvPanel "Configuration Value"
              (key ++ ": "
               ++ (if contains "api_key" key
                   then (if truthy_value (parse_value value) then "****" else "<not set>")
                   else py_str (parse_value value))))], inl tt).
Proof.
  intros Hsave. split.
  - unfold config_set, save_config. now rewrite Hsave.
  - unfold config_get. now rewrite get_value_set.
Qed.

Lemma config_set_then_get_witness :
  (fun _ : dict => @None string) (set_config DEFAULT_CONFIG "api_keys.gemini" "abc") = None
  /\ config_set (fun _ : dict => @None string) DEFAULT_CONFIG "api_keys.gemini" "abc" =
    ([CSaved (set_config DEFAULT_CONFIG "api_keys.gemini" "abc");
      COut (EvPanel "Configuration Updated"
              ("Updated: " ++ "api_keys.gemini" ++ " = "
               ++ (if contains "api_key" "api_keys.gemini" then "****" else "abc")))], inl tt)
  /\ config_get (set_config DEFAULT_CONFIG "api_keys.gemini" "abc") "api_keys.gemini" =
    ([COut (EvPanel "Configuration Value"
              ("api_keys.gemini" ++ ": "
               ++ (if contains "api_key" "api_keys.gemini"
                   then (if truthy_value (parse_value "abc") then "****" else "<not set>")
                   else py_str (parse_value "abc"))))], inl tt).
Proof.
  split; [reflexivity|].
  apply (config_set_then_get (fun _ : dict => @None string) DEFAULT_CONFIG "api_keys.gemini" "abc").
  reflexivity.
Defined.

(** [config set KEY VALUE], then [config unset KEY], then [config get KEY]:
    the unset finds the key, saves a configuration in which it is gone, and
    the get reports it as not found, for any starting configuration and
    any (dotted) key. *)
Theorem config_set_unset_get (config : dict) (key value : string) :
  exists c2,
    config_unset (fun _ : dict => @None string) (set_config config key value) key =
      ([CSaved c2; COut (EvPanel "Configuration Updated" ("Removed: " ++ key))], inl tt)
    /\ config_get c2 key =
      ([COut (EvPanel "Warning" ("Key '" ++ key ++ "' not found in config"))], inl tt).
Proof.
  destruct (unset_config_set config key value) as [c2 [H1 H2]].
  exists c2. split.
  - unfold config_unset. now rewrite H1.
  - unfold config_get. now rewrite H2.
Qed.

(** With [api_key] in the key, [config get] and [config set] never print
    the stored or the given value: [get] shows [****], [<not set>] or the
    not-found warning, and [set] shows [****] (besides writing the file). *)
Theorem api_key_values_never_shown (save : dict -> option string) (config : dict)
    (key value : string) :
  contains "api_key" key = true ->
  (forall ev, In ev (fst (config_get config key)) ->
     ev = COut (EvPanel "Configuration Value" (key ++ ": ****"))
     \/ ev = COut (EvPanel "Configuration Value" (key ++ ": <not set>"))
     \/ ev = COut (EvPanel "Warning" ("Key '" ++ key ++ "' not found in config")))
  /\ (forall ev, In ev (fst (config_set save config key value)) ->
     ev = CSaved (set_config config key value)
     \/ ev = COut (EvPanel "Configuration Updated" ("Updated: " ++ key ++ " = ****"))).
Proof.
  intros Hk. split; intros ev Hin.
  - unfold config_get in Hin.
    destruct (get_value config key) as [[v|]|e]; simpl in Hin.
    + rewrite Hk in Hin. destruct (truthy_value v); simpl in Hin; intuition.
    + unfold not_found in Hin. simpl in Hin. intuition.
    + contradiction.
  - unfold config_set, save_config in Hin.
    destruct (save (set_config config key value)); simpl in Hin; [contradiction|].
    rewrite Hk in Hin. intuition.
Qed.

Lemma api_key_values_never_shown_witness :
  contains "api_key" "api_keys.gemini" = true
  /\ (forall ev, In ev (fst (config_get DEFAULT_CONFIG "api_keys.gemini")) ->
     ev = COut (EvPanel "Configuration Value" ("api_keys.gemini" ++ ": ****"))
     \/ ev = COut (EvPanel "Configuration Value" ("api_keys.gemini" ++ ": <not set>"))
     \/ ev = COut (EvPanel "Warning" ("Key '" ++ "api_keys.gemini" ++ "' not found in config")))
  /\ (forall ev, In ev (fst (config_set (fun _ : dict => @None string) DEFAULT_CONFIG "api_keys.gemini" "sk-1")) ->
     ev = CSaved (set_config DEFAULT_CONFIG "api_keys.gemini" "sk-1")
     \/ ev = COut (EvPanel "Configuration Updated" ("Updated: " ++ "api_keys.gemini" ++ " = ****"))).
Proof.
  split; [reflexivity|].
  apply (api_key_values_never_shown (fun _ : dict => @None string) DEFAULT_CONFIG "api_keys.gemini" "sk-1").
  reflexivity.
Defined.

(** [config list] depends on the entries of the [api_keys] table only
    through their names and whether they are set: two configurations that
    differ only in non-empty key values print the same text. *)
Theorem config_list_masks_api_keys (config : dict) (ks1 ks2 : dict) :
  map (fun pk => (fst pk, truthy_value (snd pk))) ks1
  = map (fun pk => (fst pk, truthy_value (snd pk))) ks2 ->
  config_list (dict_set config "api_keys" (VDict ks1))
  = config_list (dict_set config "api_keys" (VDict ks2)).
Proof.
  intros Hm.
  set (R := fun a b : string * toml_value =>
              a = b \/ (a = ("api_keys", VDict ks1) /\ b = ("api_keys", VDict ks2))).
  assert (Hlines : forall d1 d2, Forall2 R d1 d2 -> config_lines d1 = config_lines d2).
  { intros d1 d2 HF. induction HF as [|a b d1 d2 Hab HF IH]; [reflexivity|].
    destruct Hab as [<-|[-> ->]].
    - destruct a as [k v]. simpl. now rewrite IH.
    - cbn [config_lines]. rewrite String.eqb_refl. cbv beta iota. rewrite IH.
      assert (Hg : forall ks : dict,
        map (fun pk => "  [green]" ++ fst pk ++ ":[/] "
                       ++ (if truthy_value (snd pk) then "****" else "<not set>")) ks
        = map (fun pb : string * bool => "  [green]" ++ fst pb ++ ":[/] "
                         ++ (if snd pb then "****" else "<not set>"))
              (map (fun pk => (fst pk, truthy_value (snd pk))) ks)).
      { intros ks. now rewrite map_map. }
      now rewrite (Hg ks1), (Hg ks2), Hm. }
  unfold config_list. rewrite (Hlines (dict_set config "api_keys" (VDict ks1))
                                      (dict_set config "api_keys" (VDict ks2))).
  - reflexivity.
  - unfold dict_set. destruct (dict_mem config "api_keys").
    + induction config as [|[k v] d IH]; simpl; constructor; auto.
      unfold R. destruct (String.eqb k "api_keys"); simpl; auto.
    + apply Forall2_app.
      * induction config as [|kv d IH]; constructor; unfold R; auto.
      * constructor; [unfold R; auto | constructor].
Qed.

Lemma config_list_masks_api_keys_witness :
  map (fun pk => (fst pk, truthy_value (snd pk))) [("gemini", VStr "sk-111")]
  = map (fun pk => (fst pk, truthy_value (snd pk))) [("gemini", VStr "sk-222")]
  /\ config_list (dict_set DEFAULT_CONFIG "api_keys" (VDict [("gemini", VStr "sk-111")]))
   = config_list (dict_set DEFAULT_CONFIG "api_keys" (VDict [("gemini", VStr "sk-222")])).
Proof.
  split; [reflexivity|].
  apply (config_list_masks_api_keys DEFAULT_CONFIG
           [("gemini", VStr "sk-111")] [("gemini", VStr "sk-222")]).
  reflexivity.
Defined.

(** [config get K.P] where [K] holds a string [s] (no dots in [K] and
    [P]): [P in s] is a substring test, so when [P] occurs in [s] the
    lookup [s[P]] raises a [TypeError], which [main] reports as an
    unexpected error with exit status 1; otherwise the key is reported as
    not found and the exit status is 0. *)
Theorem config_get_through_string (verbose : bool) (config : dict) (k s p : string) :
  dict_lookup config k = Some (VStr s) ->
  contains "." k = false -> contains "." p = false ->
  run_config_command verbose (Some (inl config)) (fun c => config_get c (k ++ "." ++ p)) =
    if contains p s
    then ([COut (EvPanel "Error"
                   "Unexpected error: string indices must be integers, not 'str'");
           CTraceback], 1%Z)
    else ([COut (EvPanel "Warning" ("Key '" ++ (k ++ "." ++ p) ++ "' not found in config"))],
          0%Z).
Proof.
  intros Hl Hk Hp.
  assert (Hm : dict_mem config k = true) by (now rewrite dict_mem_lookup, Hl).
  unfold run_config_command, config_get, get_value.
  rewrite contains_dotted, split_on_dotted by assumption.
  cbn [load_config tryT bindT retT walk py_in py_getitem]. rewrite Hm, Hl.
  unfold py_in, py_getitem. destruct (contains p s); reflexivity.
Qed.

Lemma config_get_through_string_witness :
  dict_lookup DEFAULT_CONFIG "provider" = Some (VStr "gemini")
  /\ contains "." "provider" = false /\ contains "." "em" = false
  /\ run_config_command false (Some (inl DEFAULT_CONFIG))
       (fun c => config_get c ("provider" ++ "." ++ "em")) =
    if contains "em" "gemini"
    then ([COut (EvPanel "Error"
                   "Unexpected error: string indices must be integers, not 'str'");
           CTraceback], 1%Z)
    else ([COut (EvPanel "Warning" ("Key '" ++ ("provider" ++ "." ++ "em") ++ "' not found in config"))],
          0%Z).
Proof.
  split; [reflexivity|]. split; [reflexivity|]. split; [reflexivity|].
  apply (config_get_through_string false DEFAULT_CONFIG "provider" "gemini" "em");
    reflexivity.
Defined.

(** A [save_config] failure in [config set]: the [PrReviewError] it raises
    (exit code 2) is not caught by the command, so [main] reports it as an
    unexpected error and the exit status is 1. *)
Theorem config_set_save_failure_exits_1 (verbose : bool) (save : dict -> option string)
    (config : dict) (key value err : string) :
  save (set_config config key value) = Some err ->
  run_config_command verbose (Some (inl config)) (fun c => config_set save c key value) =
    ([COut (EvPanel "Error" ("Unexpected error: Error saving config: " ++ err));
      CTraceback], 1%Z).
Proof.
  intros Hs. unfold run_config_command, config_set, save_config. cbn.
  now rewrite Hs.
Qed.

Lemma config_set_save_failure_exits_1_witness :
  (fun _ : dict => Some "Permission denied") (set_config DEFAULT_CONFIG "model" "m")
    = Some "Permission denied"
  /\ run_config_command false (Some (inl DEFAULT_CONFIG))
       (fun c => config_set (fun _ : dict => Some "Permission denied") c "model" "m") =
    ([COut (EvPanel "Error" ("Unexpected error: Error saving config: " ++ "Permission denied"));
      CTraceback], 1%Z).
Proof.
  split; [reflexivity|].
  apply (config_set_save_failure_exits_1 false (fun _ : dict => Some "Permission denied")
           DEFAULT_CONFIG "model" "m" "Permission denied").
  reflexivity.
Defined.

End ConfigExtras.
